(** * Health Wrapped page (page.tsx): message selectors, monthly charts,
      stat cards and the data loader

    A shallow embedding of the logic of [page.tsx].  JavaScript numbers are
    IEEE-754 binary64 values, modelled by Rocq's primitive [float] (same
    format, same comparison and addition); property bags are finite maps
    keyed by property-name strings; the [Home] component's state and its
    fetch effect are a small transition system. *)

From Stdlib Require Import Floats.PrimFloat Floats.SpecFloat Floats.FloatOps.
From Stdlib Require Import Floats.FloatAxioms.
From Stdlib Require Import ZArith Ascii.
From stdpp Require Import gmap strings list pretty relations.

Open Scope string_scope.
Open Scope nat_scope.

(* ===================================================================== *)
(** ** JavaScript values used by the page *)
(* ===================================================================== *)

(** [number]: an IEEE-754 double. *)
Abbreviation number := float.

(** A value read from the fetched document or passed as an optional
    parameter: [T | null | undefined]. *)
Inductive nullable (A : Type) : Type :=
  | undefined
  | null
  | val (a : A).
Arguments undefined {A}.
Arguments null {A}.
Arguments val {A} a.

(** Strings that arrive from the document are sequences of UTF-16 code
    units; the text literals of the source are kept as Rocq strings. *)
Definition jsstring := list N.

Definition code_units (s : string) : jsstring :=
  (fun c => N.of_nat (nat_of_ascii c)) <$> String.list_ascii_of_string s.

Module JS.

(** Relational operators on numbers.  Every comparison with NaN is
    false; [a > b] is [b < a] and [a >= b] is [b <= a]. *)
Definition lt (a b : number) : bool := (a <? b)%float.
Definition le (a b : number) : bool := (a <=? b)%float.
Definition gt (a b : number) : bool := (b <? a)%float.
Definition ge (a b : number) : bool := (b <=? a)%float.

(** [a === b] on numbers: NaN differs from itself, +0 equals -0. *)
Definition strict_eq (a b : number) : bool := (a =? b)%float.

(** ToBoolean on a number: +0, -0 and NaN are falsy. *)
Definition truthy_number (x : number) : bool :=
  negb (is_zero x || is_nan x).

(** ToBoolean on a string: only the empty string is falsy. *)
Definition truthy_string (s : jsstring) : bool :=
  match s with
  | [] => false
  | _ :: _ => true
  end.

(** ToBoolean on an optional value: null and undefined are falsy. *)
Definition truthy {A} (inner : A -> bool) (x : nullable A) : bool :=
  match x with
  | val a => inner a
  | _ => false
  end.

(** ToNumber on an optional number, as the relational operators apply it:
    undefined becomes NaN and null becomes +0. *)
Definition ToNumber (x : nullable number) : number :=
  match x with
  | undefined => nan
  | null => 0%float
  | val a => a
  end.

(** [a < b] on strings: lexicographic on code units, a proper prefix is
    smaller. *)
Fixpoint str_lt (a b : jsstring) : bool :=
  match a, b with
  | _, [] => false
  | [], _ :: _ => true
  | x :: a', y :: b' =>
      if (x <? y)%N then true
      else if (y <? x)%N then false
      else str_lt a' b'
  end.

(** [a < lit] and [a > lit] for an optional string against a literal that
    is not numeric: a nullish left operand is compared as a number against
    NaN, which is false. *)
Definition opt_str_lt (a : nullable jsstring) (lit : jsstring) : bool :=
  match a with
  | val s => str_lt s lit
  | _ => false
  end.
Definition opt_str_gt (a : nullable jsstring) (lit : jsstring) : bool :=
  match a with
  | val s => str_lt lit s
  | _ => false
  end.

(** [a ?? b]. *)
Definition coalesce {A} (a : nullable A) (b : A) : A :=
  match a with
  | val x => x
  | _ => b
  end.

(** [a ?? b] where [b] may itself be missing, as in [a ?? b ?? c]. *)
Definition coalesce_opt {A} (a b : nullable A) : nullable A :=
  match a with
  | val _ => a
  | _ => b
  end.

(** [a?.f]. *)
Definition optchain {A B} (a : nullable A) (f : A -> B) : nullable B :=
  match a with
  | val x => val (f x)
  | _ => undefined
  end.

End JS.

Infix "??" := JS.coalesce (at level 45, left associativity).

(* ===================================================================== *)
(** ** Message helpers *)
(* ===================================================================== *)

Definition getStepsMessage (steps : number) : string :=
  if JS.lt steps 50000 then
    "Whoa... did your sneakers go on vacation? Your couch definitely won this year."
  else if JS.lt steps 200000 then
    "You kept things casual—enough movement to keep the playlists going, but room to roam."
  else if JS.lt steps 500000 then
    "You were active! That many steps is basically a never-ending city stroll."
  else "Holy moly cuz... that's alot of steps!".

Definition getDistanceMessage (km : number) : string :=
  if JS.ge km 1500 then "That's like walking from Toronto to Minnesota!"
  else if JS.ge km 800 then
    "You covered enough ground to stretch across a couple of countries."
  else if JS.ge km 200 then
    "Solid grind: that’s a full-on road trip completed one stride at a time."
  else "Every kilometer counts—keep stacking them and the map won’t keep up.".

Definition getFlightsMessage (flights : number) : string :=
  if JS.strict_eq flights 0 then
    "Elevators only? No judgement, but even your smartwatch is side-eyeing you."
  else if JS.lt flights 200 then
    "Steady climbs! You treated stairs like background dancers."
  else if JS.lt flights 500 then
    "You and staircases? Basically on a first-name basis."
  else "All this cardio warrants skipping every single leg day".

Definition getSleepHoursMessage (hours : number) : string :=
  if JS.gt hours 3000 then
    "This year was part bedtime story, part hibernation docuseries."
  else if JS.gt hours 2000 then
    "Consider yourself well-rested royalty—crowns made of pillows."
  else "Sleep was a bit of a speedrun :(".

Definition getBedtimeMessage (bedtime : nullable jsstring) : string :=
  if negb (JS.truthy JS.truthy_string bedtime) then
    "Bedtime mystery unlocked soon."
  else if JS.opt_str_gt bedtime (code_units "23:00") then
    "Night owl confirmed—you love the late-night vibes."
  else "Pretty tidy bedtime. Your circadian rhythm approves.".

Definition getWakeMessage (waketime : nullable jsstring) : string :=
  if negb (JS.truthy JS.truthy_string waketime) then
    "Wake time? Still buffering."
  else if JS.opt_str_lt waketime (code_units "07:00") then
    "Early bird energy—you probably saw a few sunrises."
  else "You vibe with the snooze button and we're here for it.".

Definition getRestlessNightMessage (awakeningCount : nullable number) : string :=
  if negb (JS.truthy JS.truthy_number awakeningCount) then
    "Quite the restless night!"
  else if JS.gt (JS.ToNumber awakeningCount) 10 then
    "Quite the restless night!"
  else "A few tosses and turns, but you made it through.".

Definition getLongestSleepMessage (hours : nullable number) : string :=
  if negb (JS.truthy JS.truthy_number hours) then "Quite the slumber."
  else if JS.ge (JS.ToNumber hours) 12 then
    "Quite the slumber—did you awaken in another era?"
  else "Big slumber time".

Definition getShortestSleepMessage (hours : nullable number) : string :=
  if negb (JS.truthy JS.truthy_number hours) then "Power nap vibes."
  else if JS.le (JS.ToNumber hours) 3 then "Basically a blink LOL"
  else "Blink and you missed that night.".

Definition getRunCountMessage (runs : number) : string :=
  if JS.strict_eq runs 0 then
    "Your running shoes are in mint condition. Maybe too mint."
  else if JS.lt runs 20 then "Quality over quantity I suppose."
  else if JS.lt runs 60 then
    "Steady rhythm. Those playlists got some mileage."
  else "You basically lived on the leaderboard.".

Definition getLongestRunMessage (km : number) : string :=
  if JS.ge km 30 then "Marathon-core unlocked. That’s an epic long run."
  else if JS.ge km 15 then
    "Long enough to cross a couple neighborhoods with bragging rights."
  else "Bent the corner.".

Definition getFastestPaceMessage (pace : nullable number) : string :=
  if negb (JS.truthy JS.truthy_number pace) then
    "Pace radar couldn’t lock on—mysterious speed!"
  else if JS.lt (JS.ToNumber pace) 4 then
    "Blazing. You left even the data catching its breath."
  else if JS.lt (JS.ToNumber pace) 5.5 then
    "Swift and smooth—you floated through those runs."
  else "Vibez and cardio.".

Definition getRunDistanceMessage (km : number) : string :=
  if JS.ge km 500 then
    "That's a legit tour of the map. Passport stamps pending."
  else if JS.ge km 200 then
    "Hundreds of kilometers, countless playlists finished."
  else "Every kilometer counts.".

Definition getExerciseMinutesMessage (minutes : number) : string :=
  if JS.ge minutes 2000 then
    "Time is muscle—you basically lived in workout mode."
  else if JS.ge minutes 1000 then "Hours kept stackin."
  else "Every minute mattered. Warm-up phase complete.".

Definition getCaloriesBurnedMessage (calories : number) : string :=
  if JS.ge calories 100000 then
    "That’s enough energy to light up the block."
  else if JS.ge calories 50000 then
    "Plenty of sweat equity invested this year."
  else "A solid burn to get started.".

Definition getStandHoursMessage (hours : number) : string :=
  if JS.ge hours 500 then "CHAIRS EXIST BRO"
  else if JS.ge hours 300 then
    "You logged serious stand hours; the chair missed you."
  else "Baby steps toward less sitting. Keep it up.".

(** The second parameter of [getWorkoutBPMMessage]: ["high" | "avg"]. *)
Inductive BPMKind : Type := high | avg.

Definition getWorkoutBPMMessage (value : number) (type : BPMKind) : string :=
  match type with
  | high =>
      if JS.ge value 190 then "We hittin heart till failure or what"
      else if JS.ge value 160 then
        "You pushed into the spicy zone whenever it mattered."
      else "A composed high—power with control."
  | avg =>
      if JS.ge value 150 then "Your baseline intensity is pretty fiery."
      else if JS.ge value 120 then "Smooth operator"
      else "Chill sessions. Maybe next season gets a remix?"
  end.

Definition getAvgWorkoutTimeMessage (minutes : number) : string :=
  if JS.ge minutes 60 then "Sessions long enough to count as mini-epics."
  else if JS.ge minutes 30 then "Perfectly portioned workouts."
  else "Quick hits, maximum efficiency. HIIT energy.".

Definition getAvgCaloriesPerWorkoutMessage (calories : number) : string :=
  if JS.ge calories 600 then "Every workout was a blockbuster burn."
  else if JS.ge calories 350 then
    "A consistent burn that kept stacking up."
  else "Light and breezy.".

(* ===================================================================== *)
(** ** Monthly charts *)
(* ===================================================================== *)

(** A month→value object such as [steps_monthly]: its own properties,
    keyed by property name.  Property names are strings; a property read
    [o[k]] with a numeric [k] first converts [k] to its decimal string. *)
Abbreviation monthly := (gmap string number).

(** [String(idx)] for an array index plus one (a small non-negative
    integer). *)
Definition String_of (idx : nat) : string := pretty idx.

Module Obj.

(** [o[idx]] with a numeric key, and [o[key]] with a string key. *)
Definition get_num (o : monthly) (idx : nat) : nullable number :=
  match o !! String_of idx with
  | Some v => val v
  | None => undefined
  end.

Definition get_str (o : monthly) (key : string) : nullable number :=
  match o !! key with
  | Some v => val v
  | None => undefined
  end.

(** A property name as written in an object literal or a document:
    a number or a string. *)
Inductive name : Type :=
  | num_name (n : nat)
  | str_name (s : string).

Definition key_of (k : name) : string :=
  match k with
  | num_name n => String_of n
  | str_name s => s
  end.

(** The object denoted by a list of [name: value] entries, later entries
    overwriting earlier ones with the same property key. *)
Definition of_entries (es : list (name * number)) : monthly :=
  foldl (fun o e => <[key_of e.1 := e.2]> o) ∅ es.

End Obj.

Definition months : list string :=
  ["Jan"; "Feb"; "Mar"; "Apr"; "May"; "Jun";
   "Jul"; "Aug"; "Sep"; "Oct"; "Nov"; "Dec"].

Record StepsPoint : Type := { sp_name : string; sp_steps : number }.
Record WorkoutsPoint : Type := { wp_name : string; wp_workouts : number }.

(** The [data] array that [MonthlyStepsChart] hands to the line chart. *)
Definition MonthlyStepsChart (steps : nullable monthly) : list StepsPoint :=
  let safeSteps := steps ?? ∅ in
  imap (fun i m =>
          let idx := i + 1 in
          let val :=
            JS.coalesce_opt (Obj.get_num safeSteps idx)
                            (Obj.get_str safeSteps (String_of idx))
            ?? 0%float in
          {| sp_name := m; sp_steps := val |}) months.

(** The [data] array that [WorkoutTimelineChart] hands to the bar chart. *)
Definition WorkoutTimelineChart (workouts : nullable monthly)
  : list WorkoutsPoint :=
  let safeWorkouts := workouts ?? ∅ in
  imap (fun i m =>
          let idx := i + 1 in
          let val :=
            JS.coalesce_opt (Obj.get_num safeWorkouts idx)
                            (Obj.get_str safeWorkouts (String_of idx))
            ?? 0%float in
          {| wp_name := m; wp_workouts := val |}) months.

(* ===================================================================== *)
(** ** Number formatting *)
(* ===================================================================== *)

Module Fixed.

(** For a positive finite [x = m * 2^e]: the integer [n] for which
    [n / 10^f - x] is closest to zero, the larger one on a tie. *)
Definition scaled (f : nat) (m : positive) (e : Z) : N :=
  let num := (Z.pos m * 10 ^ Z.of_nat f)%Z in
  Z.to_N (if (0 <=? e)%Z then (num * 2 ^ e)%Z
          else ((2 * num + 2 ^ (- e)) / 2 ^ (1 - e))%Z).

Definition zeros (k : nat) : string :=
  String.string_of_list_ascii (replicate k "0"%char).

(** The decimal digits of [n], left-padded with zeros to [f + 1] digits,
    with a point before the last [f] digits. *)
Definition digits (f : nat) (n : N) : string :=
  let m := pretty n in
  let m := zeros (f + 1 - String.length m) +:+ m in
  let k := String.length m in
  match f with
  | O => m
  | S _ => String.substring 0 (k - f) m +:+ "." +:+ String.substring (k - f) f m
  end.

End Fixed.

Section Builtins.

(** [Number::toString], the shortest decimal text that reads back as the
    same double, and [Number(s)] on a string: the two conversions of the
    language runtime that the page relies on and that are not modelled
    here digit by digit. *)
Variable Number_toString : number -> string.
Variable Number_of_string : string -> number.

(** [x.toFixed(f)] for [0 <= f <= 100]. *)
Definition toFixed (x : number) (f : nat) : string :=
  match Prim2SF x with
  | S754_nan => "NaN"
  | S754_infinity s => if s then "-Infinity" else "Infinity"
  | S754_zero _ => Fixed.digits f 0
  | S754_finite s m e =>
      (if s then "-" else "") +:+
      (if JS.ge (abs x) 1e21 then Number_toString (abs x)
       else Fixed.digits f (Fixed.scaled f m e))
  end.

(** A number or an optional number inside a template literal. *)
Definition template_opt (x : nullable number) : string :=
  match x with
  | undefined => "undefined"
  | null => "null"
  | val a => Number_toString a
  end.

(* ===================================================================== *)
(** ** The fetched document *)
(* ===================================================================== *)

Record SleepNight : Type :=
  { duration_hours : number; sn_date_woke : jsstring }.

Record WokenNight : Type :=
  { awakening_count : number; wn_date_woke : jsstring }.

(** [interface WrappedData].  A field is [nullable] when the interface
    marks it optional or [| null], or when the page guards its read with
    [??], [?.] or [||]. *)
Record WrappedData : Type :=
  { steps_total : number;
    distance_total_km : number;
    flights_total : number;
    total_runs : number;
    longest_run_km : number;
    fastest_pace_min_per_km : nullable number;
    run_distances : nullable (list number);
    resting_hr_avg : number;
    workout_hr_avg : number;
    workouts_count : number;
    highest_workout_bpm : nullable number;
    avg_workout_bpm : nullable number;
    avg_workout_time_min : nullable number;
    avg_calories_per_workout : nullable number;
    total_workout_calories : nullable number;
    most_calories_burned_day : jsstring;
    most_calories_burned_value : number;
    move_total : number;
    exercise_total : nullable number;
    stand_total : nullable number;
    steps_monthly : nullable monthly;
    workouts_monthly : nullable monthly;
    wrapped_year : number;
    total_net_sleep_hours : number;
    total_nights_with_data : nullable number;
    avg_sleep_per_night : number;
    avg_bedtime : nullable jsstring;
    avg_waketime : nullable jsstring;
    longest_sleep_night : nullable SleepNight;
    most_woken_night : nullable WokenNight;
    shortest_sleep_night : nullable SleepNight }.

(* ===================================================================== *)
(** ** Slides *)
(* ===================================================================== *)

(** Props of [SleepCard] and [RunCard]; a run card has no footer. *)
Record Card : Type :=
  { label : string;
    value : string;
    note : string;
    footer : nullable jsstring }.

(** Props of [SummaryTile]. *)
Inductive Theme : Type := movement | sleep | running | fitness.

Record Tile : Type :=
  { title : string;
    stat : string;
    tile_note : string;
    theme : Theme }.

(** [const totalRunDistance] of [Home]. *)
Definition totalRunDistance (data : WrappedData) : string :=
  toFixed (foldl (fun a b => (a + b)%float) 0%float
                 (run_distances data ?? []))
          2.

(** The "Shortest Sleep" card. *)
Definition ShortestSleepCard (data : WrappedData) : Card :=
  let hours := JS.optchain (shortest_sleep_night data) duration_hours in
  {| label := "Shortest Sleep";
     value := match hours with
              | val h => Number_toString h
              | _ => "N/A"
              end +:+ " hrs";
     note := getShortestSleepMessage hours;
     footer := JS.optchain (shortest_sleep_night data) sn_date_woke |}.

(** The "Fastest Pace" card. *)
Definition FastestPaceCard (data : WrappedData) : Card :=
  {| label := "Fastest Pace";
     value := template_opt (fastest_pace_min_per_km data) +:+ " min/km";
     note := getFastestPaceMessage (fastest_pace_min_per_km data);
     footer := undefined |}.

(** The "Distance in Runs" card. *)
Definition DistanceInRunsCard (data : WrappedData) : Card :=
  {| label := "Distance in Runs";
     value := totalRunDistance data +:+ " km";
     note := getRunDistanceMessage (Number_of_string (totalRunDistance data));
     footer := undefined |}.

(** The "Running" tile of [FinalSummarySlide]. *)
Definition RunningTile (fastestPace : nullable number) : Tile :=
  {| title := "Running";
     stat := if JS.truthy JS.truthy_number fastestPace
             then template_opt fastestPace +:+ " min/km"
             else "—";
     tile_note := "Pace so smooth it deserves its own playlist.";
     theme := running |}.

(** What [Home] returns, restricted to the slides whose content depends
    on the document through the helpers above. *)
Record Slides : Type :=
  { steps_message : string;
    steps_chart : list StepsPoint;
    shortest_sleep : Card;
    fastest_pace : Card;
    distance_in_runs : Card;
    workouts_chart : list WorkoutsPoint;
    running_tile : Tile }.

Inductive View : Type :=
  | Loading (text : string)
  | Wrapped (slides : Slides).

(** The body of [Home] after the hooks: the view for the current state. *)
Definition Home (data : nullable WrappedData) : View :=
  match data with
  | val data =>
      Wrapped
        {| steps_message := getStepsMessage (steps_total data);
           steps_chart := MonthlyStepsChart (steps_monthly data);
           shortest_sleep := ShortestSleepCard data;
           fastest_pace := FastestPaceCard data;
           distance_in_runs := DistanceInRunsCard data;
           workouts_chart := WorkoutTimelineChart (workouts_monthly data);
           running_tile :=
             RunningTile
               (JS.coalesce_opt (fastest_pace_min_per_km data) null) |}
  | _ => Loading "Loading your Wrapped…"
  end.

End Builtins.

(* ===================================================================== *)
(** ** The data loader: state, effect and promise chain of [Home] *)
(* ===================================================================== *)

Module Loader.

(** A rejection reason (a network failure, a body that is not JSON). *)
Record Error : Type := { message : string }.

(** A settled promise. *)
Inductive settled (A : Type) : Type :=
  | fulfilled (a : A)
  | rejected (reason : Error).
Arguments fulfilled {A} a.
Arguments rejected {A} reason.

(** A response; [res.json()] settles with the parsed body or rejects. *)
Record Response : Type := { json : settled WrappedData }.

Record Request : Type := { method : string; url : string }.

Record LogEntry : Type := { log_text : string; log_reason : Error }.

(** The page: the [data] cell of [useState], the dependency array of the
    last committed effect (none before the first commit), the requests
    issued so far, the number of promise chains still waiting for their
    fetch, and the console. *)
Record Page : Type :=
  { data : nullable WrappedData;
    last_deps : option (list unit);
    requests : list Request;
    pending : nat;
    console : list LogEntry }.

(** [useState<WrappedData | null>(null)] on a fresh page. *)
Definition initial : Page :=
  {| data := null; last_deps := None; requests := []; pending := 0;
     console := [] |}.

(** Handlers of a promise chain: they read and update the page and settle
    with a value or a rejection. *)
Definition M (A : Type) : Type := Page -> settled A * Page.

Definition resolve {A} (r : settled A) : M A := fun p => (r, p).

(** [p.then(f)]: [f] runs on fulfilment, a rejection is passed on. *)
Definition then_ {A B} (m : M A) (f : A -> M B) : M B :=
  fun p =>
    match m p with
    | (fulfilled a, p') => f a p'
    | (rejected e, p') => (rejected e, p')
    end.

(** [p.catch(h)]: [h] runs on rejection, a fulfilment is passed on. *)
Definition catch_ {A} (m : M A) (h : Error -> M A) : M A :=
  fun p =>
    match m p with
    | (fulfilled a, p') => (fulfilled a, p')
    | (rejected e, p') => h e p'
    end.

Definition res_json (res : Response) : M WrappedData :=
  fun p => (json res, p).

Definition setData (j : WrappedData) : M unit :=
  fun p =>
    (fulfilled tt,
     {| data := val j; last_deps := last_deps p; requests := requests p;
        pending := pending p; console := console p |}).

Definition console_error (text : string) (e : Error) : M unit :=
  fun p =>
    (fulfilled tt,
     {| data := data p; last_deps := last_deps p; requests := requests p;
        pending := pending p;
        console := console p ++ [{| log_text := text; log_reason := e |}] |}).

Definition endpoint : Request :=
  {| method := "GET"; url := "http://127.0.0.1:8000/wrapped" |}.

(** The effect body up to the point where [fetch] returns its promise:
    the request goes out and a chain waits for it. *)
Definition effect (p : Page) : Page :=
  {| data := data p; last_deps := last_deps p;
     requests := requests p ++ [endpoint];
     pending := S (pending p); console := console p |}.

(** The rest of the chain, run when the fetch settles with [net]:
    [.then(res => res.json()).then(json => setData(json)).catch(...)]. *)
Definition chain (net : settled Response) : M unit :=
  catch_
    (then_ (then_ (resolve net) res_json) setData)
    (console_error "Failed to fetch wrapped data:").

(** The dependency array of the effect in [Home]: [[]]. *)
Definition Home_deps : list unit := [].

(** [useEffect]: the effect runs after the first commit and after a commit
    whose dependency array differs from the previous one. *)
Definition deps_changed (prev : option (list unit)) (next : list unit) : bool :=
  match prev with
  | None => true
  | Some d => negb (bool_decide (d = next))
  end.

(** A render of [Home] is committed (the mount, or any later re-render). *)
Definition commit (p : Page) : Page :=
  if deps_changed (last_deps p) Home_deps then
    effect {| data := data p; last_deps := Some Home_deps;
              requests := requests p; pending := pending p;
              console := console p |}
  else p.

(** A waiting chain sees its fetch settle. *)
Definition settle (net : settled Response) (p : Page) : settled unit * Page :=
  chain net {| data := data p; last_deps := last_deps p;
               requests := requests p; pending := pred (pending p);
               console := console p |}.

(** Everything that can happen to the page. *)
Inductive step : Page -> Page -> Prop :=
  | step_commit p : step p (commit p)
  | step_settle p net : 0 < pending p -> step p (settle net p).2.

(** The fetch failed: the request was rejected, or the body did not
    parse. *)
Definition failure (net : settled Response) : option Error :=
  match net with
  | rejected e => Some e
  | fulfilled res =>
      match json res with
      | rejected e => Some e
      | fulfilled _ => None
      end
  end.

(** The chain has run and failed with [e]: nothing is waiting, the
    snapshot is still null, one request went out, one line was logged. *)
Definition failed_with (e : Error) (p : Page) : Prop :=
  data p = null
  ∧ last_deps p = Some Home_deps
  ∧ requests p = [endpoint]
  ∧ pending p = 0
  ∧ console p
    = [{| log_text := "Failed to fetch wrapped data:"; log_reason := e |}].

(** What holds of every page reachable from [initial]: before the first
    commit nothing has happened; afterwards exactly one request has been
    issued, at most one chain waits for it, and the snapshot is null as
    long as that chain waits. *)
Definition inv (p : Page) : Prop :=
  match last_deps p with
  | None => requests p = [] ∧ pending p = 0 ∧ data p = null
  | Some d =>
      d = Home_deps ∧ requests p = [endpoint]
      ∧ (pending p = 0 ∨ pending p = 1 ∧ data p = null)
  end.

End Loader.

(* ===================================================================== *)
(** ** The other cards of [Home] and the card components *)
(* ===================================================================== *)

(** A piece of rendered text: text of the source (a literal, or built
    from literals and printed numbers), or a string of the document. *)
Inductive Text : Type :=
  | lit (s : string)
  | doc (s : jsstring).

(** ToBoolean on a text of the source. *)
Definition truthy_lit (s : string) : bool :=
  match s with
  | EmptyString => false
  | String _ _ => true
  end.

(** The text nodes a [SleepCard] shows, top to bottom: label, value, the
    note when it is truthy, and "Day: " with the footer when the footer is
    truthy. *)
Definition SleepCard (label : string) (value : Text) (note : string)
    (footer : nullable jsstring) : list Text :=
  [lit label; value]
  ++ (if truthy_lit note then [lit note] else [])
  ++ (if JS.truthy JS.truthy_string footer
      then [lit "Day: "; doc (footer ?? [])]
      else []).

(** The text nodes of a [RunCard] and of a [FitnessCard] (whose variant
    only selects colours). *)
Definition RunCard (label value note : string) : list Text :=
  [lit label; lit value] ++ (if truthy_lit note then [lit note] else []).

Inductive Variant : Type := default_variant | alert.

Definition FitnessCard (label value note : string) (variant : Variant)
  : list Text :=
  [lit label; lit value] ++ (if truthy_lit note then [lit note] else []).

(** Props of the "Average Bedtime" and "Average Wake Time" cards, whose
    value is a string of the document or the literal "N/A". *)
Record TimeCard : Type :=
  { tc_label : string;
    tc_value : Text;
    tc_note : string }.

(** [s || "N/A"]. *)
Definition or_NA (s : nullable jsstring) : Text :=
  if JS.truthy JS.truthy_string s then doc (s ?? []) else lit "N/A".

Definition AverageBedtimeCard (data : WrappedData) : TimeCard :=
  {| tc_label := "Average Bedtime";
     tc_value := or_NA (avg_bedtime data);
     tc_note := getBedtimeMessage (avg_bedtime data) |}.

Definition AverageWakeTimeCard (data : WrappedData) : TimeCard :=
  {| tc_label := "Average Wake Time";
     tc_value := or_NA (avg_waketime data);
     tc_note := getWakeMessage (avg_waketime data) |}.

(** Props of a [FitnessCard]. *)
Record FitnessProps : Type :=
  { fp_label : string;
    fp_value : string;
    fp_note : string;
    fp_variant : Variant }.

Section MoreCards.

Variable Number_toString : number -> string.

(** The pill under "Average Sleep Time". *)
Definition AverageSleepTime (data : WrappedData) : string :=
  toFixed Number_toString (avg_sleep_per_night data) 1 +:+ " hrs".

Definition NightsRecordedCard (data : WrappedData) : Card :=
  {| label := "Nights Recorded";
     value := Number_toString (total_nights_with_data data ?? 0%float);
     note := "Each dot is a story your pillow could tell.";
     footer := undefined |}.

Definition MostWokenNightCard (data : WrappedData) : Card :=
  let count := JS.optchain (most_woken_night data) awakening_count in
  {| label := "Most Woken Night";
     value := match count with
              | val c => Number_toString c
              | _ => "N/A"
              end +:+ " wake-ups";
     note := getRestlessNightMessage count;
     footer := JS.optchain (most_woken_night data) wn_date_woke |}.

Definition LongestSleepCard (data : WrappedData) : Card :=
  let hours := JS.optchain (longest_sleep_night data) duration_hours in
  {| label := "Longest Sleep";
     value := match hours with
              | val h => Number_toString h
              | _ => "N/A"
              end +:+ " hrs";
     note := getLongestSleepMessage hours;
     footer := JS.optchain (longest_sleep_night data) sn_date_woke |}.

Definition LongestRunCard (data : WrappedData) : Card :=
  {| label := "Longest Run";
     value := Number_toString (longest_run_km data) +:+ " km";
     note := getLongestRunMessage (longest_run_km data);
     footer := undefined |}.

(** The seven fitness cards of [Home], in page order. *)
Definition FitnessCards (data : WrappedData) : list FitnessProps :=
  [ {| fp_label := "Exercise Minutes";
       fp_value := Number_toString (exercise_total data ?? 0%float) +:+ " min";
       fp_note := getExerciseMinutesMessage (exercise_total data ?? 0%float);
       fp_variant := default_variant |};
    {| fp_label := "Calories Burned";
       fp_value :=
         Number_toString (total_workout_calories data ?? 0%float) +:+ " kcal";
       fp_note :=
         getCaloriesBurnedMessage (total_workout_calories data ?? 0%float);
       fp_variant := default_variant |};
    {| fp_label := "Stand Hours";
       fp_value := Number_toString (stand_total data ?? 0%float) +:+ " hrs";
       fp_note := getStandHoursMessage (stand_total data ?? 0%float);
       fp_variant := default_variant |};
    {| fp_label := "Highest Workout BPM";
       fp_value :=
         Number_toString (highest_workout_bpm data ?? 0%float) +:+ " bpm";
       fp_note :=
         getWorkoutBPMMessage (highest_workout_bpm data ?? 0%float) high;
       fp_variant := alert |};
    {| fp_label := "Average Workout BPM";
       fp_value := Number_toString (avg_workout_bpm data ?? 0%float) +:+ " bpm";
       fp_note := getWorkoutBPMMessage (avg_workout_bpm data ?? 0%float) avg;
       fp_variant := alert |};
    {| fp_label := "Avg Workout Time";
       fp_value :=
         Number_toString (avg_workout_time_min data ?? 0%float) +:+ " min";
       fp_note :=
         getAvgWorkoutTimeMessage (avg_workout_time_min data ?? 0%float);
       fp_variant := default_variant |};
    {| fp_label := "Avg Calories / Workout";
       fp_value :=
         Number_toString (avg_calories_per_workout data ?? 0%float)
         +:+ " kcal";
       fp_note :=
         getAvgCaloriesPerWorkoutMessage
           (avg_calories_per_workout data ?? 0%float);
       fp_variant := default_variant |} ].

(** The three night cards of the second sleep slide, in page order. *)
Definition NightCards (data : WrappedData) : list Card :=
  [MostWokenNightCard data; LongestSleepCard data;
   ShortestSleepCard Number_toString data].

End MoreCards.

(* ===================================================================== *)
(** ** Vocabulary of the statements *)
(* ===================================================================== *)

(** Every result of [f] is a member of [msgs]. *)
Definition selects_from {A} (f : A -> string) (msgs : list string) : Prop :=
  ∀ x, f x ∈ msgs.

(** The same entries written with numeric property names, and with the
    string form of those names. *)
Definition numeric_keys (es : list (nat * number)) : list (Obj.name * number) :=
  (λ e, (Obj.num_name e.1, e.2)) <$> es.

Definition string_keys (es : list (nat * number)) : list (Obj.name * number) :=
  (λ e, (Obj.str_name (String_of e.1), e.2)) <$> es.

(** A text with a decimal point followed by exactly two characters. *)
Definition two_decimals (s : string) : Prop :=
  ∃ a b, s = a +:+ "." +:+ b ∧ String.length b = 2.

(** [x] is finite and smaller than 10^21 in magnitude: the range in which
    [toFixed] prints fixed-point digits. *)
Definition fixed_range (x : number) : bool :=
  match Prim2SF x with
  | S754_nan | S754_infinity _ => false
  | S754_zero _ => true
  | S754_finite _ _ _ => negb (JS.ge (abs x) 1e21)
  end.

(** An absent optional field: [null] in the document, or no property at
    all. *)
Definition missing {A} (x : nullable A) : Prop := x = null ∨ x = undefined.

(** A document with 600000 steps whose optional parts are all missing. *)
Definition sample : WrappedData :=
  {| steps_total := 600000;
     distance_total_km := 412.5;
     flights_total := 0;
     total_runs := 0;
     longest_run_km := 0;
     fastest_pace_min_per_km := null;
     run_distances := null;
     resting_hr_avg := 58;
     workout_hr_avg := 131;
     workouts_count := 0;
     highest_workout_bpm := null;
     avg_workout_bpm := null;
     avg_workout_time_min := null;
     avg_calories_per_workout := null;
     total_workout_calories := null;
     most_calories_burned_day := code_units "2024-06-01";
     most_calories_burned_value := 0;
     move_total := 0;
     exercise_total := null;
     stand_total := null;
     steps_monthly := val {[ "3" := 500%float ]};
     workouts_monthly := val ∅;
     wrapped_year := 2024;
     total_net_sleep_hours := 2500;
     total_nights_with_data := null;
     avg_sleep_per_night := 7.5;
     avg_bedtime := val (code_units "23:30");
     avg_waketime := val (code_units "06:45");
     longest_sleep_night := undefined;
     most_woken_night := undefined;
     shortest_sleep_night := undefined |}.

(** [sample] with recorded runs. *)
Definition sample_runs (l : list number) : WrappedData :=
  {| steps_total := steps_total sample;
     distance_total_km := distance_total_km sample;
     flights_total := flights_total sample;
     total_runs := total_runs sample;
     longest_run_km := longest_run_km sample;
     fastest_pace_min_per_km := fastest_pace_min_per_km sample;
     run_distances := val l;
     resting_hr_avg := resting_hr_avg sample;
     workout_hr_avg := workout_hr_avg sample;
     workouts_count := workouts_count sample;
     highest_workout_bpm := highest_workout_bpm sample;
     avg_workout_bpm := avg_workout_bpm sample;
     avg_workout_time_min := avg_workout_time_min sample;
     avg_calories_per_workout := avg_calories_per_workout sample;
     total_workout_calories := total_workout_calories sample;
     most_calories_burned_day := most_calories_burned_day sample;
     most_calories_burned_value := most_calories_burned_value sample;
     move_total := move_total sample;
     exercise_total := exercise_total sample;
     stand_total := stand_total sample;
     steps_monthly := steps_monthly sample;
     workouts_monthly := workouts_monthly sample;
     wrapped_year := wrapped_year sample;
     total_net_sleep_hours := total_net_sleep_hours sample;
     total_nights_with_data := total_nights_with_data sample;
     avg_sleep_per_night := avg_sleep_per_night sample;
     avg_bedtime := avg_bedtime sample;
     avg_waketime := avg_waketime sample;
     longest_sleep_night := longest_sleep_night sample;
     most_woken_night := most_woken_night sample;
     shortest_sleep_night := shortest_sleep_night sample |}.

(** The position of [s] in the list [msgs] (its length when absent): the
    tier of a message in a selector's list ordered from lowest to
    highest. *)
Fixpoint tier (msgs : list string) (s : string) : nat :=
  match msgs with
  | [] => 0
  | m :: rest => if String.eqb m s then 0 else S (tier rest s)
  end.

(** The code units of a 24-hour clock time written [HH:MM]. *)
Definition two_digits (n : nat) : jsstring :=
  [N.of_nat (48 + n / 10); N.of_nat (48 + n mod 10)].

Definition hhmm (h m : nat) : jsstring :=
  (two_digits h ++ [58%N] ++ two_digits m)%list.

(** A text with a decimal point followed by exactly [f] characters. *)
Definition decimals (f : nat) (s : string) : Prop :=
  ∃ a b, s = a +:+ "." +:+ b ∧ String.length b = f.


(** The four shapes a page can have: before the first commit, waiting
    for the fetch, holding the document, or having logged the failure. *)
Inductive Phase : Type :=
  | fresh
  | waiting
  | loaded (j : WrappedData)
  | failed (e : Loader.Error).

Definition page_of (ph : Phase) : Loader.Page :=
  match ph with
  | fresh => Loader.initial
  | waiting =>
      {| Loader.data := null; Loader.last_deps := Some Loader.Home_deps;
         Loader.requests := [Loader.endpoint]; Loader.pending := 1;
         Loader.console := [] |}
  | loaded j =>
      {| Loader.data := val j; Loader.last_deps := Some Loader.Home_deps;
         Loader.requests := [Loader.endpoint]; Loader.pending := 0;
         Loader.console := [] |}
  | failed e =>
      {| Loader.data := null; Loader.last_deps := Some Loader.Home_deps;
         Loader.requests := [Loader.endpoint]; Loader.pending := 0;
         Loader.console :=
           [{| Loader.log_text := "Failed to fetch wrapped data:";
               Loader.log_reason := e |}] |}
  end.

(* ===================================================================== *)
(** ** Properties of the message helpers *)
(* ===================================================================== *)

(** Closes [s ∈ [s1; ...; sn]] for string literals. *)
Ltac member := apply (bool_decide_unpack _); vm_compute; exact I.

(** Unfolds a selector and settles membership branch by branch. *)
Ltac by_branches f :=
  intros ?; unfold f; repeat case_match; member.

(** C1: for every number [steps], [getStepsMessage] picks one of four
    fixed, pairwise different strings by comparing in order: the first when
    [steps < 50000], else the second when [steps < 200000], else the third
    when [steps < 500000], else the fourth (NaN included); at 600000 it is
    the fourth, and so is the message of the steps slide for a document
    with [steps_total = 600000]. *)
Theorem getStepsMessage_thresholds (steps : number) :
  (JS.lt steps 50000 = true ->
   getStepsMessage steps =
     "Whoa... did your sneakers go on vacation? Your couch definitely won this year.")
  ∧ (JS.lt steps 50000 = false -> JS.lt steps 200000 = true ->
     getStepsMessage steps =
       "You kept things casual—enough movement to keep the playlists going, but room to roam.")
  ∧ (JS.lt steps 50000 = false -> JS.lt steps 200000 = false ->
     JS.lt steps 500000 = true ->
     getStepsMessage steps =
       "You were active! That many steps is basically a never-ending city stroll.")
  ∧ (JS.lt steps 50000 = false -> JS.lt steps 200000 = false ->
     JS.lt steps 500000 = false ->
     getStepsMessage steps = "Holy moly cuz... that's alot of steps!")
  ∧ NoDup
      ["Whoa... did your sneakers go on vacation? Your couch definitely won this year.";
       "You kept things casual—enough movement to keep the playlists going, but room to roam.";
       "You were active! That many steps is basically a never-ending city stroll.";
       "Holy moly cuz... that's alot of steps!"]
  ∧ getStepsMessage 600000 = "Holy moly cuz... that's alot of steps!"
  ∧ (∀ (toStr : number -> string) (parse : string -> number)
       (data : WrappedData),
       steps_total data = 600000%float ->
       ∃ s, Home toStr parse (val data) = Wrapped s
            ∧ steps_message s = "Holy moly cuz... that's alot of steps!").
Proof.
  unfold getStepsMessage.
  repeat apply conj.
  - by intros ->.
  - by intros -> ->.
  - by intros -> -> ->.
  - by intros -> -> ->.
  - apply (bool_decide_unpack _). vm_compute. exact I.
  - reflexivity.
  - intros toStr parse data Hsteps. eexists. split; [reflexivity|].
    simpl. unfold getStepsMessage. by rewrite Hsteps.
Qed.

Lemma getStepsMessage_thresholds_witness :
  getStepsMessage 250000 =
    "You were active! That many steps is basically a never-ending city stroll.".
Proof.
  apply (getStepsMessage_thresholds 250000); reflexivity.
Defined.

(** C3: each of the eighteen message selectors is a function (one result
    per input, no state read or written) defined on its whole domain, and
    every result is a member of the selector's fixed set of strings; the
    selectors with an optional parameter return their fallback string for
    [undefined] and for [null]. *)
Theorem message_selectors_total_fixed_range :
  selects_from getStepsMessage
    ["Whoa... did your sneakers go on vacation? Your couch definitely won this year.";
     "You kept things casual—enough movement to keep the playlists going, but room to roam.";
     "You were active! That many steps is basically a never-ending city stroll.";
     "Holy moly cuz... that's alot of steps!"]
  ∧ selects_from getDistanceMessage
    ["That's like walking from Toronto to Minnesota!";
     "You covered enough ground to stretch across a couple of countries.";
     "Solid grind: that’s a full-on road trip completed one stride at a time.";
     "Every kilometer counts—keep stacking them and the map won’t keep up."]
  ∧ selects_from getFlightsMessage
    ["Elevators only? No judgement, but even your smartwatch is side-eyeing you.";
     "Steady climbs! You treated stairs like background dancers.";
     "You and staircases? Basically on a first-name basis.";
     "All this cardio warrants skipping every single leg day"]
  ∧ selects_from getBedtimeMessage
    ["Bedtime mystery unlocked soon.";
     "Night owl confirmed—you love the late-night vibes.";
     "Pretty tidy bedtime. Your circadian rhythm approves."]
  ∧ selects_from getWakeMessage
    ["Wake time? Still buffering.";
     "Early bird energy—you probably saw a few sunrises.";
     "You vibe with the snooze button and we're here for it."]
  ∧ selects_from getRestlessNightMessage
    ["Quite the restless night!";
     "A few tosses and turns, but you made it through."]
  ∧ selects_from getLongestSleepMessage
    ["Quite the slumber.";
     "Quite the slumber—did you awaken in another era?";
     "Big slumber time"]
  ∧ selects_from getShortestSleepMessage
    ["Power nap vibes."; "Basically a blink LOL";
     "Blink and you missed that night."]
  ∧ selects_from getRunCountMessage
    ["Your running shoes are in mint condition. Maybe too mint.";
     "Quality over quantity I suppose.";
     "Steady rhythm. Those playlists got some mileage.";
     "You basically lived on the leaderboard."]
  ∧ selects_from getLongestRunMessage
    ["Marathon-core unlocked. That’s an epic long run.";
     "Long enough to cross a couple neighborhoods with bragging rights.";
     "Bent the corner."]
  ∧ selects_from getFastestPaceMessage
    ["Pace radar couldn’t lock on—mysterious speed!";
     "Blazing. You left even the data catching its breath.";
     "Swift and smooth—you floated through those runs.";
     "Vibez and cardio."]
  ∧ selects_from getRunDistanceMessage
    ["That's a legit tour of the map. Passport stamps pending.";
     "Hundreds of kilometers, countless playlists finished.";
     "Every kilometer counts."]
  ∧ selects_from getExerciseMinutesMessage
    ["Time is muscle—you basically lived in workout mode.";
     "Hours kept stackin.";
     "Every minute mattered. Warm-up phase complete."]
  ∧ selects_from getCaloriesBurnedMessage
    ["That’s enough energy to light up the block.";
     "Plenty of sweat equity invested this year.";
     "A solid burn to get started."]
  ∧ selects_from getStandHoursMessage
    ["CHAIRS EXIST BRO";
     "You logged serious stand hours; the chair missed you.";
     "Baby steps toward less sitting. Keep it up."]
  ∧ selects_from (fun a => getWorkoutBPMMessage a.1 a.2)
    ["We hittin heart till failure or what";
     "You pushed into the spicy zone whenever it mattered.";
     "A composed high—power with control.";
     "Your baseline intensity is pretty fiery.";
     "Smooth operator";
     "Chill sessions. Maybe next season gets a remix?"]
  ∧ selects_from getAvgWorkoutTimeMessage
    ["Sessions long enough to count as mini-epics.";
     "Perfectly portioned workouts.";
     "Quick hits, maximum efficiency. HIIT energy."]
  ∧ selects_from getAvgCaloriesPerWorkoutMessage
    ["Every workout was a blockbuster burn.";
     "A consistent burn that kept stacking up.";
     "Light and breezy."]
  ∧ (getBedtimeMessage undefined = "Bedtime mystery unlocked soon."
     ∧ getBedtimeMessage null = "Bedtime mystery unlocked soon.")
  ∧ (getWakeMessage undefined = "Wake time? Still buffering."
     ∧ getWakeMessage null = "Wake time? Still buffering.")
  ∧ (getRestlessNightMessage undefined = "Quite the restless night!"
     ∧ getRestlessNightMessage null = "Quite the restless night!")
  ∧ (getLongestSleepMessage undefined = "Quite the slumber."
     ∧ getLongestSleepMessage null = "Quite the slumber.")
  ∧ (getShortestSleepMessage undefined = "Power nap vibes."
     ∧ getShortestSleepMessage null = "Power nap vibes.")
  ∧ (getFastestPaceMessage undefined
       = "Pace radar couldn’t lock on—mysterious speed!"
     ∧ getFastestPaceMessage null
       = "Pace radar couldn’t lock on—mysterious speed!").
Proof.
  repeat apply conj; try reflexivity.
  - by_branches getStepsMessage.
  - by_branches getDistanceMessage.
  - by_branches getFlightsMessage.
  - by_branches getBedtimeMessage.
  - by_branches getWakeMessage.
  - by_branches getRestlessNightMessage.
  - by_branches getLongestSleepMessage.
  - by_branches getShortestSleepMessage.
  - by_branches getRunCountMessage.
  - by_branches getLongestRunMessage.
  - by_branches getFastestPaceMessage.
  - by_branches getRunDistanceMessage.
  - by_branches getExerciseMinutesMessage.
  - by_branches getCaloriesBurnedMessage.
  - by_branches getStandHoursMessage.
  - by_branches getWorkoutBPMMessage.
  - by_branches getAvgWorkoutTimeMessage.
  - by_branches getAvgCaloriesPerWorkoutMessage.
Qed.

(** C8: the four selectors over an optional number treat a present 0 as a
    missing value: at 0 each returns the string it returns for [undefined]
    and [null], and not the string of the lowest bucket of present values
    (the one a small present value such as 1 gets). *)
Theorem zero_treated_as_missing :
  (getRestlessNightMessage (val 0%float) = getRestlessNightMessage undefined
   ∧ getRestlessNightMessage (val 0%float) = getRestlessNightMessage null
   ∧ getRestlessNightMessage (val 0%float) = "Quite the restless night!"
   ∧ getRestlessNightMessage (val 1%float)
     = "A few tosses and turns, but you made it through."
   ∧ getRestlessNightMessage (val 0%float)
     ≠ getRestlessNightMessage (val 1%float))
  ∧ (getLongestSleepMessage (val 0%float) = getLongestSleepMessage undefined
     ∧ getLongestSleepMessage (val 0%float) = getLongestSleepMessage null
     ∧ getLongestSleepMessage (val 0%float) = "Quite the slumber."
     ∧ getLongestSleepMessage (val 1%float) = "Big slumber time"
     ∧ getLongestSleepMessage (val 0%float)
       ≠ getLongestSleepMessage (val 1%float))
  ∧ (getShortestSleepMessage (val 0%float) = getShortestSleepMessage undefined
     ∧ getShortestSleepMessage (val 0%float) = getShortestSleepMessage null
     ∧ getShortestSleepMessage (val 0%float) = "Power nap vibes."
     ∧ getShortestSleepMessage (val 1%float) = "Basically a blink LOL"
     ∧ getShortestSleepMessage (val 0%float)
       ≠ getShortestSleepMessage (val 1%float))
  ∧ (getFastestPaceMessage (val 0%float) = getFastestPaceMessage undefined
     ∧ getFastestPaceMessage (val 0%float) = getFastestPaceMessage null
     ∧ getFastestPaceMessage (val 0%float)
       = "Pace radar couldn’t lock on—mysterious speed!"
     ∧ getFastestPaceMessage (val 1%float)
       = "Blazing. You left even the data catching its breath."
     ∧ getFastestPaceMessage (val 0%float)
       ≠ getFastestPaceMessage (val 1%float)).
Proof.
  repeat apply conj; try reflexivity; by vm_compute.
Qed.

(* ===================================================================== *)
(** ** Properties of the monthly charts *)
(* ===================================================================== *)

(** The value a chart shows for the 1-based month [idx] of [o]. *)
Lemma month_value (o : monthly) (idx : nat) :
  JS.coalesce_opt (Obj.get_num o idx) (Obj.get_str o (String_of idx))
    ?? 0%float
  = default 0%float (o !! String_of idx).
Proof.
  unfold Obj.get_num, Obj.get_str.
  by destruct (o !! String_of idx).
Qed.

Lemma months_lookup (k : nat) :
  1 ≤ k ≤ 12 → ∃ m, months !! (k - 1) = Some m.
Proof.
  intros Hk. apply lookup_lt_is_Some. simpl. lia.
Qed.

Lemma MonthlyStepsChart_lookup (o : monthly) (k : nat) :
  1 ≤ k ≤ 12 →
  MonthlyStepsChart (val o) !! (k - 1)
  = (λ m, {| sp_name := m; sp_steps := default 0%float (o !! String_of k) |})
      <$> months !! (k - 1).
Proof.
  intros Hk. unfold MonthlyStepsChart.
  rewrite list_lookup_imap. simpl JS.coalesce.
  destruct (months_lookup k Hk) as [m ->]. simpl.
  rewrite month_value. by replace (k - 1 + 1) with k by lia.
Qed.

Lemma WorkoutTimelineChart_lookup (o : monthly) (k : nat) :
  1 ≤ k ≤ 12 →
  WorkoutTimelineChart (val o) !! (k - 1)
  = (λ m, {| wp_name := m;
             wp_workouts := default 0%float (o !! String_of k) |})
      <$> months !! (k - 1).
Proof.
  intros Hk. unfold WorkoutTimelineChart.
  rewrite list_lookup_imap. simpl JS.coalesce.
  destruct (months_lookup k Hk) as [m ->]. simpl.
  rewrite month_value. by replace (k - 1 + 1) with k by lia.
Qed.

Lemma MonthlyStepsChart_names (steps : nullable monthly) :
  sp_name <$> MonthlyStepsChart steps = months.
Proof. reflexivity. Qed.

Lemma WorkoutTimelineChart_names (workouts : nullable monthly) :
  wp_name <$> WorkoutTimelineChart workouts = months.
Proof. reflexivity. Qed.

(** C2: for every month→value object, the empty one included, both chart
    transforms give twelve entries named Jan..Dec in order; the entry at
    index [k - 1] carries the value stored for month [k], and 0 when the
    object has nothing for month [k].  A missing object is read as the
    empty one.  The object [{3: 500}] gives 500 at index 2 and 0 at the
    eleven other indices. *)
Theorem monthly_chart_transform (o : monthly) (k : nat) :
  1 ≤ k ≤ 12 →
  (length (MonthlyStepsChart (val o)) = 12
   ∧ sp_name <$> MonthlyStepsChart (val o) = months
   ∧ sp_steps <$> MonthlyStepsChart (val o) !! (k - 1)
     = Some (default 0%float (o !! String_of k)))
  ∧ (length (WorkoutTimelineChart (val o)) = 12
     ∧ wp_name <$> WorkoutTimelineChart (val o) = months
     ∧ wp_workouts <$> WorkoutTimelineChart (val o) !! (k - 1)
       = Some (default 0%float (o !! String_of k)))
  ∧ sp_steps <$> MonthlyStepsChart (val ∅) = replicate 12 0%float
  ∧ wp_workouts <$> WorkoutTimelineChart (val ∅) = replicate 12 0%float
  ∧ (MonthlyStepsChart undefined = MonthlyStepsChart (val ∅)
     ∧ MonthlyStepsChart null = MonthlyStepsChart (val ∅)
     ∧ WorkoutTimelineChart undefined = WorkoutTimelineChart (val ∅)
     ∧ WorkoutTimelineChart null = WorkoutTimelineChart (val ∅))
  ∧ sp_steps <$> MonthlyStepsChart (val {[ "3" := 500%float ]})
    = [0; 0; 500; 0; 0; 0; 0; 0; 0; 0; 0; 0]%float
  ∧ wp_workouts <$> WorkoutTimelineChart (val {[ "3" := 500%float ]})
    = [0; 0; 500; 0; 0; 0; 0; 0; 0; 0; 0; 0]%float.
Proof.
  intros Hk.
  destruct (months_lookup k Hk) as [m Hm].
  repeat apply conj; try reflexivity.
  - by rewrite MonthlyStepsChart_lookup, Hm.
  - by rewrite WorkoutTimelineChart_lookup, Hm.
Qed.

Lemma monthly_chart_transform_witness :
  sp_steps <$> MonthlyStepsChart (val {[ "7" := 9000%float ]}) !! (7 - 1)
  = Some (default 0%float
            (({[ "7" := 9000%float ]} : monthly) !! String_of 7)).
Proof.
  apply (monthly_chart_transform {[ "7" := 9000%float ]} 7). lia.
Defined.

Lemma of_entries_keys (es : list (nat * number)) :
  Obj.of_entries (string_keys es) = Obj.of_entries (numeric_keys es).
Proof.
  unfold Obj.of_entries. generalize (∅ : monthly).
  induction es as [|e es IH]; intros acc; [done|].
  cbn. apply IH.
Qed.

Lemma get_num_get_str (o : monthly) (idx : nat) :
  Obj.get_num o idx = Obj.get_str o (String_of idx).
Proof. reflexivity. Qed.

Lemma get_str_val (o : monthly) (key : string) (v : number) :
  Obj.get_str o key = val v ↔ o !! key = Some v.
Proof.
  unfold Obj.get_str. destruct (o !! key); split; congruence.
Qed.

Lemma get_str_undefined (o : monthly) (key : string) :
  Obj.get_str o key = undefined ↔ o !! key = None.
Proof.
  unfold Obj.get_str. destruct (o !! key); split; congruence.
Qed.

(** C9: a chart reads month [k] under the numeric key and then under its
    string form, and both reads reach the same property; entries written
    with string keys give the same twelve-entry sequence as the same
    entries written with numeric keys; a value found under either key is
    the one shown, and 0 is shown when both reads find nothing.  The
    objects [{"3": 500}] and [{3: 500}] give the same sequence. *)
Theorem monthly_chart_key_forms
    (es : list (nat * number)) (o : monthly) (k : nat) (v : number) :
  1 ≤ k ≤ 12 →
  Obj.get_num o k = Obj.get_str o (String_of k)
  ∧ MonthlyStepsChart (val (Obj.of_entries (string_keys es)))
    = MonthlyStepsChart (val (Obj.of_entries (numeric_keys es)))
  ∧ WorkoutTimelineChart (val (Obj.of_entries (string_keys es)))
    = WorkoutTimelineChart (val (Obj.of_entries (numeric_keys es)))
  ∧ (Obj.get_num o k = val v ∨ Obj.get_str o (String_of k) = val v →
     sp_steps <$> MonthlyStepsChart (val o) !! (k - 1) = Some v
     ∧ wp_workouts <$> WorkoutTimelineChart (val o) !! (k - 1) = Some v)
  ∧ (Obj.get_num o k = undefined ∧ Obj.get_str o (String_of k) = undefined →
     sp_steps <$> MonthlyStepsChart (val o) !! (k - 1) = Some 0%float
     ∧ wp_workouts <$> WorkoutTimelineChart (val o) !! (k - 1)
       = Some 0%float)
  ∧ sp_steps <$>
      MonthlyStepsChart
        (val (Obj.of_entries [(Obj.str_name "3", 500%float)]))
    = [0; 0; 500; 0; 0; 0; 0; 0; 0; 0; 0; 0]%float
  ∧ MonthlyStepsChart (val (Obj.of_entries [(Obj.str_name "3", 500%float)]))
    = MonthlyStepsChart (val (Obj.of_entries [(Obj.num_name 3, 500%float)]))
  ∧ WorkoutTimelineChart
      (val (Obj.of_entries [(Obj.str_name "3", 500%float)]))
    = WorkoutTimelineChart
        (val (Obj.of_entries [(Obj.num_name 3, 500%float)])).
Proof.
  intros Hk.
  destruct (months_lookup k Hk) as [m Hm].
  repeat apply conj; try reflexivity.
  - by rewrite of_entries_keys.
  - by rewrite of_entries_keys.
  - intros Hv. rewrite get_num_get_str in Hv.
    assert (o !! String_of k = Some v) as Hov
      by (by destruct Hv as [Hv|Hv]; apply get_str_val in Hv).
    by rewrite MonthlyStepsChart_lookup, WorkoutTimelineChart_lookup, Hm, Hov.
  - intros [_ Hu]. apply get_str_undefined in Hu.
    by rewrite MonthlyStepsChart_lookup, WorkoutTimelineChart_lookup, Hm, Hu.
Qed.

Lemma monthly_chart_key_forms_witness :
  MonthlyStepsChart
    (val (Obj.of_entries (string_keys [(3, 500%float); (11, 42%float)])))
  = MonthlyStepsChart
      (val (Obj.of_entries (numeric_keys [(3, 500%float); (11, 42%float)]))).
Proof.
  apply (monthly_chart_key_forms
           [(3, 500%float); (11, 42%float)] ∅ 3 500%float).
  lia.
Defined.

(* ===================================================================== *)
(** ** Properties of number formatting *)
(* ===================================================================== *)

Lemma length_append (s1 s2 : string) :
  String.length (s1 +:+ s2) = String.length s1 + String.length s2.
Proof.
  induction s1 as [|c s1 IH]; [done|].
  change (S (String.length (s1 +:+ s2))
          = S (String.length s1 + String.length s2)).
  by rewrite IH.
Qed.

Lemma length_substring (s : string) (n m : nat) :
  n + m ≤ String.length s → String.length (String.substring n m s) = m.
Proof.
  revert n m. induction s as [|c s IH]; intros [|n] [|m] Hlen;
    simpl in *; try done; try lia.
  - rewrite IH; [done|lia].
  - apply IH. lia.
  - apply IH. lia.
Qed.

Lemma length_zeros (k : nat) : String.length (Fixed.zeros k) = k.
Proof.
  unfold Fixed.zeros. induction k as [|k IH]; [done|].
  simpl. by rewrite IH.
Qed.

Lemma digits_two_decimals (n : N) : two_decimals (Fixed.digits 2 n).
Proof.
  unfold Fixed.digits.
  set (m := Fixed.zeros (2 + 1 - String.length (pretty n)) +:+ pretty n).
  assert (3 ≤ String.length m) as Hm.
  { unfold m. rewrite length_append, length_zeros. lia. }
  eexists _, _. split; [reflexivity|].
  apply length_substring. lia.
Qed.

Lemma toFixed_two_decimals (toStr : number -> string) (x : number) :
  fixed_range x = true → two_decimals (toFixed toStr x 2).
Proof.
  unfold fixed_range, toFixed.
  destruct (Prim2SF x) as [z|i| |s m e]; try done.
  - intros _. apply digits_two_decimals.
  - intros Hr. apply negb_true_iff in Hr. rewrite Hr.
    destruct (digits_two_decimals (Fixed.scaled 2 m e)) as (a & b & -> & Hb).
    destruct s; [exists ("-" +:+ a), b | exists a, b]; done.
Qed.

(* ===================================================================== *)
(** ** Properties of the cards *)
(* ===================================================================== *)

Example totalRunDistance_runs :
  totalRunDistance (λ _, "") (sample_runs [5.25; 10.125; 3.5]%float) = "18.88".
Proof. vm_compute. reflexivity. Qed.

Example Home_sample_steps_message :
  ∃ s, Home (λ _, "") (λ _, 0%float) (val sample) = Wrapped s
       ∧ steps_message s = "Holy moly cuz... that's alot of steps!".
Proof. eexists. split; reflexivity. Qed.

(** C10: the value of the "Distance in Runs" card is computed on the page:
    the entries of [run_distances] are added up from 0, the sum is printed
    by [toFixed(2)] (a point and two decimals whenever the sum is finite
    and below 10^21) and followed by " km"; with [run_distances] null or
    undefined the sum runs over the empty list, so the card, which is
    rendered all the same, reads "0.00 km". *)
Theorem distance_in_runs_card
    (toStr : number -> string) (parse : string -> number)
    (data : WrappedData) :
  let sum := foldl (λ a b, (a + b)%float) 0%float (run_distances data ?? []) in
  value (DistanceInRunsCard toStr parse data) = toFixed toStr sum 2 +:+ " km"
  ∧ (fixed_range sum = true → two_decimals (toFixed toStr sum 2))
  ∧ (missing (run_distances data) →
     run_distances data ?? [] = []
     ∧ sum = 0%float
     ∧ totalRunDistance toStr data = "0.00"
     ∧ value (DistanceInRunsCard toStr parse data) = "0.00 km"
     ∧ ∃ s, Home toStr parse (val data) = Wrapped s
            ∧ value (distance_in_runs s) = "0.00 km").
Proof.
  intros sum. split; [done|]. split; [apply toFixed_two_decimals|].
  intros Hmiss.
  assert (run_distances data ?? [] = []) as Hnil
    by (by destruct Hmiss as [H|H]; rewrite H).
  assert (sum = 0%float) as Hsum by (unfold sum; by rewrite Hnil).
  assert (totalRunDistance toStr data = "0.00") as Htot
    by (unfold totalRunDistance; by rewrite Hnil).
  assert (value (DistanceInRunsCard toStr parse data) = "0.00 km") as Hval
    by (unfold DistanceInRunsCard; simpl value; by rewrite Htot).
  repeat split; try done.
  eexists. split; [reflexivity|exact Hval].
Qed.

Lemma distance_in_runs_card_witness :
  value (DistanceInRunsCard (λ _, "") (λ _, 0%float) sample) = "0.00 km".
Proof.
  apply (distance_in_runs_card (λ _, "") (λ _, 0%float) sample).
  left. reflexivity.
Defined.

(** C6: with [shortest_sleep_night] undefined the "Shortest Sleep" card is
    still rendered: its value shows the literal "N/A" in the place of the
    duration (followed by the unit), its note is the fallback string of
    [getShortestSleepMessage], and it has no footer. *)
Theorem shortest_sleep_card_fallback
    (toStr : number -> string) (parse : string -> number)
    (data : WrappedData) :
  shortest_sleep_night data = undefined →
  ShortestSleepCard toStr data
  = {| label := "Shortest Sleep";
       value := "N/A" +:+ " hrs";
       note := "Power nap vibes.";
       footer := undefined |}
  ∧ note (ShortestSleepCard toStr data) = getShortestSleepMessage undefined
  ∧ ∃ s, Home toStr parse (val data) = Wrapped s
         ∧ value (shortest_sleep s) = "N/A hrs"
         ∧ note (shortest_sleep s) = "Power nap vibes.".
Proof.
  intros Hu.
  assert (ShortestSleepCard toStr data
          = {| label := "Shortest Sleep"; value := "N/A" +:+ " hrs";
               note := "Power nap vibes."; footer := undefined |}) as Hc
    by (unfold ShortestSleepCard; by rewrite Hu).
  split; [done|]. split; [by rewrite Hc|].
  eexists. split; [reflexivity|]. simpl shortest_sleep. by rewrite Hc.
Qed.

Lemma shortest_sleep_card_fallback_witness :
  ShortestSleepCard (λ _, "") sample
  = {| label := "Shortest Sleep";
       value := "N/A" +:+ " hrs";
       note := "Power nap vibes.";
       footer := undefined |}.
Proof.
  apply (shortest_sleep_card_fallback (λ _, "") (λ _, 0%float) sample).
  reflexivity.
Defined.

(** C4: with [fastest_pace_min_per_km] null the "Running" tile of the
    final summary shows the placeholder "—", but the value of the
    "Fastest Pace" card is the text "null min/km": the field is printed
    as it is, and only the card's note falls back. *)
Theorem fastest_pace_null_rendering
    (toStr : number -> string) (parse : string -> number)
    (data : WrappedData) :
  fastest_pace_min_per_km data = null →
  ∃ s, Home toStr parse (val data) = Wrapped s
       ∧ value (fastest_pace s) = "null min/km"
       ∧ note (fastest_pace s)
         = "Pace radar couldn’t lock on—mysterious speed!"
       ∧ stat (running_tile s) = "—".
Proof.
  intros Hn. eexists. split; [reflexivity|].
  simpl. unfold FastestPaceCard, RunningTile. rewrite Hn. done.
Qed.

Lemma fastest_pace_null_rendering_witness :
  ∃ s, Home (λ _, "") (λ _, 0%float) (val sample) = Wrapped s
       ∧ value (fastest_pace s) = "null min/km"
       ∧ note (fastest_pace s)
         = "Pace radar couldn’t lock on—mysterious speed!"
       ∧ stat (running_tile s) = "—".
Proof.
  apply (fastest_pace_null_rendering (λ _, "") (λ _, 0%float) sample).
  reflexivity.
Defined.

(* ===================================================================== *)
(** ** Properties of the data loader *)
(* ===================================================================== *)

Module LoaderFacts.
Import Loader.

Lemma settle_failure (net : settled Response) (e : Error) :
  failure net = Some e →
  (settle net (commit initial)).1 = fulfilled tt
  ∧ failed_with e (settle net (commit initial)).2.
Proof.
  unfold failure. destruct net as [[[j|e']]|e']; simpl; intros He;
    simplify_eq; by vm_compute.
Qed.

Lemma failed_with_step (e : Error) (p q : Page) :
  failed_with e p → step p q → q = p.
Proof.
  intros (Hd & Hl & Hr & Hp & Hc) Hstep.
  destruct Hstep as [p|p net Hpos]; [|lia].
  unfold commit. by rewrite Hl.
Qed.

Lemma failed_with_steps (e : Error) (p q : Page) :
  failed_with e p → rtc step p q → q = p.
Proof.
  intros Hf Hsteps. induction Hsteps as [p|p p' q Hstep _ IH]; [done|].
  apply (failed_with_step e) in Hstep as ->; [|done]. by apply IH.
Qed.

Lemma inv_initial : inv initial.
Proof. by vm_compute. Qed.

Lemma inv_step (p q : Page) : inv p → step p q → inv q.
Proof.
  unfold inv. intros Hinv Hstep.
  destruct Hstep as [p|p net Hpos].
  - unfold commit. destruct (last_deps p) as [d|] eqn:Hl.
    + destruct Hinv as (-> & Hr & Hp). simpl. by rewrite Hl.
    + destruct Hinv as (Hr & Hp & Hd). simpl. rewrite Hr, Hp. auto.
  - destruct (last_deps p) as [d|] eqn:Hl; [|lia].
    destruct Hinv as (-> & Hr & [Hp|[Hp Hd]]); [lia|].
    unfold settle, chain, catch_, then_, resolve, res_json, setData,
      console_error.
    destruct net as [[[j|e]]|e]; simpl; rewrite ?Hl, ?Hr, ?Hp; auto.
Qed.

Lemma inv_steps (p q : Page) : inv p → rtc step p q → inv q.
Proof.
  intros Hinv Hsteps. induction Hsteps as [p|p p' q Hstep _ IH]; [done|].
  apply IH. by apply (inv_step p).
Qed.

Lemma loaded_step (p q : Page) (d : WrappedData) :
  inv p → data p = val d → step p q → q = p.
Proof.
  unfold inv. intros Hinv Hd Hstep.
  destruct (last_deps p) as [deps|] eqn:Hl.
  - destruct Hinv as (-> & Hr & [Hp|[Hp Hn]]); [|congruence].
    destruct Hstep as [p|p net Hpos]; [|lia].
    unfold commit. by rewrite Hl.
  - destruct Hinv as (_ & _ & Hn). congruence.
Qed.

Lemma loaded_steps (p q : Page) (d : WrappedData) :
  inv p → data p = val d → rtc step p q → q = p.
Proof.
  intros Hinv Hd Hsteps.
  induction Hsteps as [p|p p' q Hstep _ IH]; [done|].
  apply (loaded_step p p' d) in Hstep as ->; [|done..]. by apply IH.
Qed.

End LoaderFacts.

(** C5: the loading view is what [Home] returns before the fetch settles;
    when the fetch fails (the request is rejected, or the body does not
    parse) the rejection is caught and logged once, the chain ends
    fulfilled so nothing propagates, and from then on whatever happens to
    the page — any number of re-renders — the view is "Loading your
    Wrapped…", no further request is issued and the console holds that
    single line. *)
Theorem fetch_failure_stays_loading
    (toStr : number -> string) (parse : string -> number)
    (net : Loader.settled Loader.Response) (e : Loader.Error) (p : Loader.Page) :
  Loader.failure net = Some e →
  rtc Loader.step (Loader.settle net (Loader.commit Loader.initial)).2 p →
  Home toStr parse (Loader.data Loader.initial)
  = Loading "Loading your Wrapped…"
  ∧ Home toStr parse (Loader.data (Loader.commit Loader.initial))
    = Loading "Loading your Wrapped…"
  ∧ (Loader.settle net (Loader.commit Loader.initial)).1
    = Loader.fulfilled tt
  ∧ Home toStr parse (Loader.data p) = Loading "Loading your Wrapped…"
  ∧ Loader.requests p = [Loader.endpoint]
  ∧ Loader.pending p = 0
  ∧ Loader.console p
    = [{| Loader.log_text := "Failed to fetch wrapped data:";
          Loader.log_reason := e |}].
Proof.
  intros Hfail Hsteps.
  destruct (LoaderFacts.settle_failure net e Hfail) as [Hres Hf].
  apply (LoaderFacts.failed_with_steps e) in Hsteps as ->; [|done].
  destruct Hf as (Hd & Hl & Hr & Hp & Hc).
  repeat split; try done. by rewrite Hd.
Qed.

Lemma fetch_failure_stays_loading_witness :
  Home (λ _, "") (λ _, 0%float)
    (Loader.data
       (Loader.commit
          (Loader.settle (Loader.rejected {| Loader.message := "Failed to fetch" |})
             (Loader.commit Loader.initial)).2))
  = Loading "Loading your Wrapped…".
Proof.
  apply (fetch_failure_stays_loading (λ _, "") (λ _, 0%float)
           (Loader.rejected {| Loader.message := "Failed to fetch" |})
           {| Loader.message := "Failed to fetch" |}).
  - reflexivity.
  - apply rtc_once. apply Loader.step_commit.
Defined.

(** C7: on every page reachable from the initial one, nothing has been
    requested before the first commit and exactly one GET to the fixed
    endpoint has been issued from the first commit on; a successful fetch
    moves the snapshot from null to the parsed document; and once the
    snapshot holds a document, every later page holds the same document
    and renders the same view. *)
Theorem snapshot_fetched_once_then_fixed
    (toStr : number -> string) (parse : string -> number)
    (p q : Loader.Page) (d j : WrappedData) :
  rtc Loader.step Loader.initial p →
  rtc Loader.step p q →
  (match Loader.last_deps p with
   | None => Loader.requests p = []
   | Some _ => Loader.requests p = [Loader.endpoint]
   end)
  ∧ Loader.requests (Loader.commit Loader.initial) = [Loader.endpoint]
  ∧ Loader.endpoint
    = {| Loader.method := "GET";
         Loader.url := "http://127.0.0.1:8000/wrapped" |}
  ∧ Loader.data Loader.initial = null
  ∧ Loader.data
      (Loader.settle (Loader.fulfilled {| Loader.json := Loader.fulfilled j |})
         (Loader.commit Loader.initial)).2
    = val j
  ∧ (Loader.data p = val d →
     q = p
     ∧ Loader.data q = val d
     ∧ Home toStr parse (Loader.data q) = Home toStr parse (val d)).
Proof.
  intros Hp Hq.
  pose proof (LoaderFacts.inv_steps _ _ LoaderFacts.inv_initial Hp) as Hinv.
  repeat apply conj; try reflexivity.
  - unfold Loader.inv in Hinv.
    destruct (Loader.last_deps p); by destruct Hinv as (? & ? & ?).
  - intros Hd.
    apply (LoaderFacts.loaded_steps p q d) in Hq as ->; [|done..].
    by rewrite Hd.
Qed.

Lemma snapshot_fetched_once_then_fixed_witness :
  Loader.data
    (Loader.commit
       (Loader.settle
          (Loader.fulfilled {| Loader.json := Loader.fulfilled sample |})
          (Loader.commit Loader.initial)).2)
  = val sample.
Proof.
  set (loaded :=
         (Loader.settle
            (Loader.fulfilled {| Loader.json := Loader.fulfilled sample |})
            (Loader.commit Loader.initial)).2).
  assert (rtc Loader.step Loader.initial loaded) as Hreach.
  { eapply rtc_l; [apply Loader.step_commit|].
    apply rtc_once.
    apply (Loader.step_settle (Loader.commit Loader.initial)).
    vm_compute. lia. }
  assert (rtc Loader.step loaded (Loader.commit loaded)) as Hnext
    by (apply rtc_once, Loader.step_commit).
  destruct (snapshot_fetched_once_then_fixed (λ _, "") (λ _, 0%float)
              loaded (Loader.commit loaded) sample sample Hreach Hnext)
    as (_ & _ & _ & _ & _ & Hfixed).
  apply Hfixed. reflexivity.
Defined.

(* ===================================================================== *)
(** ** Order facts on doubles *)
(* ===================================================================== *)

Module FloatOrder.

(** Case analysis on the specification-level comparison. *)
Ltac sf_cases :=
  unfold SFleb, SFltb, SFeqb, SFcompare;
  repeat match goal with
         | x : spec_float |- _ => destruct x
         end;
  repeat match goal with
         | s : bool |- _ => destruct s
         end;
  try done;
  change (Pos.compare_cont Eq) with Pos.compare;
  repeat match goal with
         | |- context [Z.compare ?a ?b] => destruct (Z.compare_spec a b)
         | |- context [Pos.compare ?a ?b] => destruct (Pos.compare_spec a b)
         end;
  simpl; try done; try lia.

Lemma SF_le_lt_trans (x y z : spec_float) :
  SFleb x y = true → SFltb y z = true → SFltb x z = true.
Proof. sf_cases. Qed.

Lemma SF_le_trans (x y z : spec_float) :
  SFleb x y = true → SFleb y z = true → SFleb x z = true.
Proof. sf_cases. Qed.

Lemma SF_lt_le_trans (x y z : spec_float) :
  SFltb x y = true → SFleb y z = true → SFltb x z = true.
Proof. sf_cases. Qed.

Lemma SF_eqb_irrefl_nan (x : spec_float) : SFeqb x x = false → x = S754_nan.
Proof. sf_cases. Qed.

Lemma SF_le_antisym (x y : spec_float) :
  SFleb x y = true → SFleb y x = true → SFeqb x y = true.
Proof. sf_cases. Qed.

Lemma SF_eqb_le_r (x y z : spec_float) :
  SFeqb y z = true → SFleb x y = true → SFleb x z = true.
Proof. sf_cases. Qed.

Lemma SF_lt_not_eq (x y : spec_float) :
  SFltb x y = true → SFeqb x y = false.
Proof. sf_cases. Qed.

Lemma SF_lt_le (x y : spec_float) : SFltb x y = true → SFleb x y = true.
Proof. sf_cases. Qed.

Lemma SF_lt_not_le (x y : spec_float) :
  SFltb x y = true → SFleb y x = false.
Proof. sf_cases. Qed.

Lemma SF_lt_not_nan (x y : spec_float) : SFltb x y = true → SFeqb x x = true.
Proof. sf_cases. Qed.

(** [a <= b < c] gives [a < c]. *)
Lemma le_lt_trans (a b c : number) :
  JS.le a b = true → JS.lt b c = true → JS.lt a c = true.
Proof.
  unfold JS.le, JS.lt. rewrite !FloatAxioms.leb_spec, !FloatAxioms.ltb_spec. apply SF_le_lt_trans.
Qed.

(** [c <= a <= b] gives [c <= b], that is: [a >= c] and [a <= b] give
    [b >= c]. *)
Lemma ge_le_trans (a b c : number) :
  JS.le a b = true → JS.ge a c = true → JS.ge b c = true.
Proof.
  unfold JS.le, JS.ge. rewrite !FloatAxioms.leb_spec. intros Hab Hca.
  by apply (SF_le_trans _ (Prim2SF a)).
Qed.

(** [c < a <= b] gives [c < b]. *)
Lemma gt_le_trans (a b c : number) :
  JS.le a b = true → JS.gt a c = true → JS.gt b c = true.
Proof.
  unfold JS.le, JS.gt. rewrite !FloatAxioms.leb_spec, !FloatAxioms.ltb_spec. intros Hab Hca.
  by apply (SF_lt_le_trans _ (Prim2SF a)).
Qed.

(** NaN is the only double that differs from itself, and every comparison
    with it is false. *)
Lemma nan_spec (x : number) : is_nan x = true → Prim2SF x = S754_nan.
Proof.
  unfold is_nan. rewrite FloatAxioms.eqb_spec. intros H. apply negb_true_iff in H.
  by apply SF_eqb_irrefl_nan.
Qed.

Lemma nan_compare (x c : number) :
  is_nan x = true →
  JS.lt x c = false ∧ JS.le x c = false ∧ JS.gt x c = false
  ∧ JS.ge x c = false ∧ JS.strict_eq x c = false.
Proof.
  intros Hx. apply nan_spec in Hx.
  unfold JS.lt, JS.le, JS.gt, JS.ge, JS.strict_eq.
  rewrite !FloatAxioms.ltb_spec, !FloatAxioms.leb_spec, !FloatAxioms.eqb_spec, Hx.
  unfold SFltb, SFleb, SFeqb, SFcompare.
  by destruct (Prim2SF c).
Qed.

End FloatOrder.

Module FloatOrderMore.
Import FloatOrder.

Ltac to_spec :=
  unfold JS.lt, JS.le, JS.gt, JS.ge, JS.strict_eq, is_nan, is_zero;
  rewrite ?FloatAxioms.ltb_spec, ?FloatAxioms.leb_spec, ?FloatAxioms.eqb_spec.

Lemma lt_le_trans (a b c : number) :
  JS.lt a b = true → JS.le b c = true → JS.lt a c = true.
Proof. to_spec. apply SF_lt_le_trans. Qed.

Lemma lt_le (a b : number) : JS.lt a b = true → JS.le a b = true.
Proof. to_spec. apply SF_lt_le. Qed.

Lemma lt_not_eq (a b : number) :
  JS.lt a b = true → JS.strict_eq a b = false.
Proof. to_spec. apply SF_lt_not_eq. Qed.

Lemma lt_not_ge (a b : number) : JS.lt a b = true → JS.ge a b = false.
Proof. to_spec. apply SF_lt_not_le. Qed.

Lemma lt_not_gt (a b : number) : JS.lt a b = true → JS.gt a b = false.
Proof.
  intros H. destruct (JS.gt a b) eqn:E; [|done].
  apply lt_le in E. apply lt_not_ge in H. unfold JS.ge, JS.le in *. congruence.
Qed.

Lemma lt_not_nan (a b : number) : JS.lt a b = true → is_nan a = false.
Proof.
  to_spec. intros H. apply SF_lt_not_nan in H. by rewrite H.
Qed.

(** Between 0 and a double that equals 0 there is only 0: with
    [0 <= a <= b] and [b === 0], also [a === 0]. *)
Lemma zero_squeeze (a b : number) :
  JS.le 0 a = true → JS.le a b = true → JS.strict_eq b 0 = true →
  JS.strict_eq a 0 = true.
Proof.
  to_spec. intros H0a Hab Hb0.
  apply SF_le_antisym; [|done].
  by apply (SF_eqb_le_r _ (Prim2SF b)).
Qed.

(** A negative double is truthy. *)
Lemma negative_truthy (x : number) :
  JS.lt x 0 = true → JS.truthy_number x = true.
Proof.
  intros H. unfold JS.truthy_number.
  assert (is_zero x = false) as Hz by exact (lt_not_eq _ _ H).
  by rewrite Hz, (lt_not_nan _ _ H).
Qed.

End FloatOrderMore.

(* ===================================================================== *)
(** ** Further properties of the message helpers *)
(* ===================================================================== *)

(** Propagates [a <= b] through a chain of [x < c] tests, then compares
    tiers branch by branch. *)
Ltac mono_lt a b Hab :=
  repeat match goal with
         | |- context [JS.lt b ?c] =>
             let E := fresh "E" in
             destruct (JS.lt b c) eqn:E;
             [rewrite (FloatOrder.le_lt_trans a b c Hab E)|]
         end;
  repeat case_match; vm_compute; lia.

(** The same for chains of [x >= c] and [x > c] tests. *)
Ltac mono_ge a b Hab :=
  repeat match goal with
         | |- context [JS.ge a ?c] =>
             let E := fresh "E" in
             destruct (JS.ge a c) eqn:E;
             [rewrite (FloatOrder.ge_le_trans a b c Hab E)|]
         | |- context [JS.gt a ?c] =>
             let E := fresh "E" in
             destruct (JS.gt a c) eqn:E;
             [rewrite (FloatOrder.gt_le_trans a b c Hab E)|]
         end;
  repeat case_match; vm_compute; lia.

(** More steps never give a message of a lower tier: for [a <= b] the
    message for [b] stands at or after the message for [a] in the list
    ordered from the fewest steps to the most. *)
Theorem getStepsMessage_monotone (a b : number) :
  JS.le a b = true →
  tier
    ["Whoa... did your sneakers go on vacation? Your couch definitely won this year.";
     "You kept things casual—enough movement to keep the playlists going, but room to roam.";
     "You were active! That many steps is basically a never-ending city stroll.";
     "Holy moly cuz... that's alot of steps!"]
    (getStepsMessage a)
  ≤ tier
      ["Whoa... did your sneakers go on vacation? Your couch definitely won this year.";
       "You kept things casual—enough movement to keep the playlists going, but room to roam.";
       "You were active! That many steps is basically a never-ending city stroll.";
       "Holy moly cuz... that's alot of steps!"]
      (getStepsMessage b).
Proof.
  intros Hab. unfold getStepsMessage. mono_lt a b Hab.
Qed.

Lemma getStepsMessage_monotone_witness :
  tier
    ["Whoa... did your sneakers go on vacation? Your couch definitely won this year.";
     "You kept things casual—enough movement to keep the playlists going, but room to roam.";
     "You were active! That many steps is basically a never-ending city stroll.";
     "Holy moly cuz... that's alot of steps!"]
    (getStepsMessage 49999.5)
  ≤ tier
      ["Whoa... did your sneakers go on vacation? Your couch definitely won this year.";
       "You kept things casual—enough movement to keep the playlists going, but room to roam.";
       "You were active! That many steps is basically a never-ending city stroll.";
       "Holy moly cuz... that's alot of steps!"]
      (getStepsMessage 50000).
Proof.
  apply (getStepsMessage_monotone 49999.5 50000). reflexivity.
Defined.

(** The selectors that test [>=] or [>] from the highest threshold down
    are monotone as well: for [a <= b] the message for [b] is never of a
    lower tier than the message for [a] (lists ordered from the lowest
    tier to the highest). *)
Theorem threshold_messages_monotone (a b : number) :
  JS.le a b = true →
  (let l := ["Every kilometer counts—keep stacking them and the map won’t keep up.";
             "Solid grind: that’s a full-on road trip completed one stride at a time.";
             "You covered enough ground to stretch across a couple of countries.";
             "That's like walking from Toronto to Minnesota!"] in
   tier l (getDistanceMessage a) ≤ tier l (getDistanceMessage b))
  ∧ (let l := ["Sleep was a bit of a speedrun :(";
               "Consider yourself well-rested royalty—crowns made of pillows.";
               "This year was part bedtime story, part hibernation docuseries."] in
     tier l (getSleepHoursMessage a) ≤ tier l (getSleepHoursMessage b))
  ∧ (let l := ["Bent the corner.";
               "Long enough to cross a couple neighborhoods with bragging rights.";
               "Marathon-core unlocked. That’s an epic long run."] in
     tier l (getLongestRunMessage a) ≤ tier l (getLongestRunMessage b))
  ∧ (let l := ["Every kilometer counts.";
               "Hundreds of kilometers, countless playlists finished.";
               "That's a legit tour of the map. Passport stamps pending."] in
     tier l (getRunDistanceMessage a) ≤ tier l (getRunDistanceMessage b))
  ∧ (let l := ["Every minute mattered. Warm-up phase complete.";
               "Hours kept stackin.";
               "Time is muscle—you basically lived in workout mode."] in
     tier l (getExerciseMinutesMessage a)
     ≤ tier l (getExerciseMinutesMessage b))
  ∧ (let l := ["A solid burn to get started.";
               "Plenty of sweat equity invested this year.";
               "That’s enough energy to light up the block."] in
     tier l (getCaloriesBurnedMessage a) ≤ tier l (getCaloriesBurnedMessage b))
  ∧ (let l := ["Baby steps toward less sitting. Keep it up.";
               "You logged serious stand hours; the chair missed you.";
               "CHAIRS EXIST BRO"] in
     tier l (getStandHoursMessage a) ≤ tier l (getStandHoursMessage b))
  ∧ (let l := ["A composed high—power with control.";
               "You pushed into the spicy zone whenever it mattered.";
               "We hittin heart till failure or what"] in
     tier l (getWorkoutBPMMessage a high) ≤ tier l (getWorkoutBPMMessage b high))
  ∧ (let l := ["Chill sessions. Maybe next season gets a remix?";
               "Smooth operator";
               "Your baseline intensity is pretty fiery."] in
     tier l (getWorkoutBPMMessage a avg) ≤ tier l (getWorkoutBPMMessage b avg))
  ∧ (let l := ["Quick hits, maximum efficiency. HIIT energy.";
               "Perfectly portioned workouts.";
               "Sessions long enough to count as mini-epics."] in
     tier l (getAvgWorkoutTimeMessage a) ≤ tier l (getAvgWorkoutTimeMessage b))
  ∧ (let l := ["Light and breezy.";
               "A consistent burn that kept stacking up.";
               "Every workout was a blockbuster burn."] in
     tier l (getAvgCaloriesPerWorkoutMessage a)
     ≤ tier l (getAvgCaloriesPerWorkoutMessage b)).
Proof.
  intros Hab. repeat apply conj; intros l; subst l.
  - unfold getDistanceMessage. mono_ge a b Hab.
  - unfold getSleepHoursMessage. mono_ge a b Hab.
  - unfold getLongestRunMessage. mono_ge a b Hab.
  - unfold getRunDistanceMessage. mono_ge a b Hab.
  - unfold getExerciseMinutesMessage. mono_ge a b Hab.
  - unfold getCaloriesBurnedMessage. mono_ge a b Hab.
  - unfold getStandHoursMessage. mono_ge a b Hab.
  - unfold getWorkoutBPMMessage. mono_ge a b Hab.
  - unfold getWorkoutBPMMessage. mono_ge a b Hab.
  - unfold getAvgWorkoutTimeMessage. mono_ge a b Hab.
  - unfold getAvgCaloriesPerWorkoutMessage. mono_ge a b Hab.
Qed.

Lemma threshold_messages_monotone_witness :
  let l := ["Bent the corner.";
            "Long enough to cross a couple neighborhoods with bragging rights.";
            "Marathon-core unlocked. That’s an epic long run."] in
  tier l (getLongestRunMessage 14.5) ≤ tier l (getLongestRunMessage 42.25).
Proof.
  apply (threshold_messages_monotone 14.5 42.25). reflexivity.
Defined.

(** [getFlightsMessage] and [getRunCountMessage] single out 0 before
    their [<] tests, so they are monotone from 0 upwards: for
    [0 <= a <= b] the message for [b] is never of a lower tier. *)
Theorem count_messages_monotone_from_zero (a b : number) :
  JS.le 0 a = true → JS.le a b = true →
  (let l := ["Elevators only? No judgement, but even your smartwatch is side-eyeing you.";
             "Steady climbs! You treated stairs like background dancers.";
             "You and staircases? Basically on a first-name basis.";
             "All this cardio warrants skipping every single leg day"] in
   tier l (getFlightsMessage a) ≤ tier l (getFlightsMessage b))
  ∧ (let l := ["Your running shoes are in mint condition. Maybe too mint.";
               "Quality over quantity I suppose.";
               "Steady rhythm. Those playlists got some mileage.";
               "You basically lived on the leaderboard."] in
     tier l (getRunCountMessage a) ≤ tier l (getRunCountMessage b)).
Proof.
  intros H0 Hab.
  pose proof (FloatOrderMore.zero_squeeze a b H0 Hab) as Hz.
  split; intros l; subst l.
  - unfold getFlightsMessage.
    destruct (JS.strict_eq a 0) eqn:Ea.
    + repeat case_match; vm_compute; lia.
    + destruct (JS.strict_eq b 0); [by discriminate Hz|]. mono_lt a b Hab.
  - unfold getRunCountMessage.
    destruct (JS.strict_eq a 0) eqn:Ea.
    + repeat case_match; vm_compute; lia.
    + destruct (JS.strict_eq b 0); [by discriminate Hz|]. mono_lt a b Hab.
Qed.

Lemma count_messages_monotone_from_zero_witness :
  let l := ["Your running shoes are in mint condition. Maybe too mint.";
            "Quality over quantity I suppose.";
            "Steady rhythm. Those playlists got some mileage.";
            "You basically lived on the leaderboard."] in
  tier l (getRunCountMessage 0) ≤ tier l (getRunCountMessage 19).
Proof.
  apply (count_messages_monotone_from_zero 0 19); reflexivity.
Defined.

(** Below 0 the two count selectors are not monotone: every negative
    count gets the second message of the list, above the message for 0;
    and the four selectors over an optional number take a negative value
    as present and put it in the bucket of the smallest values. *)
Theorem negative_inputs (x : number) :
  JS.lt x 0 = true →
  getFlightsMessage x
  = "Steady climbs! You treated stairs like background dancers."
  ∧ getRunCountMessage x = "Quality over quantity I suppose."
  ∧ getRestlessNightMessage (val x)
    = "A few tosses and turns, but you made it through."
  ∧ getLongestSleepMessage (val x) = "Big slumber time"
  ∧ getShortestSleepMessage (val x) = "Basically a blink LOL"
  ∧ getFastestPaceMessage (val x)
    = "Blazing. You left even the data catching its breath.".
Proof.
  intros Hx.
  pose proof (FloatOrderMore.lt_not_eq _ _ Hx) as Hz.
  pose proof (FloatOrderMore.negative_truthy _ Hx) as Ht.
  assert (∀ c, JS.le 0 c = true → JS.lt x c = true) as Hlt
    by (intros c Hc; by apply (FloatOrderMore.lt_le_trans x 0 c)).
  repeat apply conj.
  - unfold getFlightsMessage. by rewrite Hz, (Hlt 200%float).
  - unfold getRunCountMessage. by rewrite Hz, (Hlt 20%float).
  - unfold getRestlessNightMessage. cbn [JS.truthy JS.ToNumber]. rewrite Ht. cbn [negb].
    by rewrite (FloatOrderMore.lt_not_gt x 10 (Hlt 10%float eq_refl)).
  - unfold getLongestSleepMessage. cbn [JS.truthy JS.ToNumber]. rewrite Ht. cbn [negb].
    by rewrite (FloatOrderMore.lt_not_ge x 12 (Hlt 12%float eq_refl)).
  - unfold getShortestSleepMessage. cbn [JS.truthy JS.ToNumber]. rewrite Ht. cbn [negb].
    by rewrite (FloatOrderMore.lt_le x 3 (Hlt 3%float eq_refl)).
  - unfold getFastestPaceMessage. cbn [JS.truthy JS.ToNumber]. rewrite Ht. cbn [negb].
    by rewrite (Hlt 4%float eq_refl).
Qed.

Lemma negative_inputs_witness :
  getFlightsMessage (-3)
  = "Steady climbs! You treated stairs like background dancers.".
Proof.
  apply (negative_inputs (-3)). reflexivity.
Defined.

(** For present, truthy values the four selectors over an optional number
    are monotone too: a larger wake-up count, a longer sleep or a slower
    pace never moves the message to an earlier entry of the list. *)
Theorem optional_messages_monotone (a b : number) :
  JS.truthy_number a = true → JS.truthy_number b = true →
  JS.le a b = true →
  (let l := ["A few tosses and turns, but you made it through.";
             "Quite the restless night!"] in
   tier l (getRestlessNightMessage (val a))
   ≤ tier l (getRestlessNightMessage (val b)))
  ∧ (let l := ["Big slumber time";
               "Quite the slumber—did you awaken in another era?"] in
     tier l (getLongestSleepMessage (val a))
     ≤ tier l (getLongestSleepMessage (val b)))
  ∧ (let l := ["Basically a blink LOL";
               "Blink and you missed that night."] in
     tier l (getShortestSleepMessage (val a))
     ≤ tier l (getShortestSleepMessage (val b)))
  ∧ (let l := ["Blazing. You left even the data catching its breath.";
               "Swift and smooth—you floated through those runs.";
               "Vibez and cardio."] in
     tier l (getFastestPaceMessage (val a))
     ≤ tier l (getFastestPaceMessage (val b))).
Proof.
  intros Ha Hb Hab. repeat apply conj; intros l; subst l.
  - unfold getRestlessNightMessage. cbn [JS.truthy JS.ToNumber].
    rewrite Ha, Hb. cbn [negb]. mono_ge a b Hab.
  - unfold getLongestSleepMessage. cbn [JS.truthy JS.ToNumber].
    rewrite Ha, Hb. cbn [negb]. mono_ge a b Hab.
  - unfold getShortestSleepMessage. cbn [JS.truthy JS.ToNumber].
    rewrite Ha, Hb. cbn [negb].
    destruct (JS.le b 3) eqn:E.
    + assert (JS.le a 3 = true) as ->; [|vm_compute; lia].
      revert Hab E. unfold JS.le. rewrite !FloatAxioms.leb_spec.
      apply FloatOrder.SF_le_trans.
    + repeat case_match; vm_compute; lia.
  - unfold getFastestPaceMessage. cbn [JS.truthy JS.ToNumber].
    rewrite Ha, Hb. cbn [negb]. mono_lt a b Hab.
Qed.

Lemma optional_messages_monotone_witness :
  let l := ["Blazing. You left even the data catching its breath.";
            "Swift and smooth—you floated through those runs.";
            "Vibez and cardio."] in
  tier l (getFastestPaceMessage (val 3.75%float))
  ≤ tier l (getFastestPaceMessage (val 5.5%float)).
Proof.
  apply (optional_messages_monotone 3.75 5.5); reflexivity.
Defined.

(** NaN fails every comparison, so a selector that tests [<] upwards
    gives NaN its top message, a selector that tests [>=] or [>]
    downwards gives it its bottom message, and the selectors over an
    optional number treat it as missing. *)
Theorem nan_inputs (x : number) :
  is_nan x = true →
  (getStepsMessage x = "Holy moly cuz... that's alot of steps!"
   ∧ getFlightsMessage x
     = "All this cardio warrants skipping every single leg day"
   ∧ getRunCountMessage x = "You basically lived on the leaderboard.")
  ∧ (getDistanceMessage x
     = "Every kilometer counts—keep stacking them and the map won’t keep up."
     ∧ getSleepHoursMessage x = "Sleep was a bit of a speedrun :("
     ∧ getLongestRunMessage x = "Bent the corner."
     ∧ getRunDistanceMessage x = "Every kilometer counts."
     ∧ getExerciseMinutesMessage x
       = "Every minute mattered. Warm-up phase complete."
     ∧ getCaloriesBurnedMessage x = "A solid burn to get started."
     ∧ getStandHoursMessage x = "Baby steps toward less sitting. Keep it up."
     ∧ getWorkoutBPMMessage x high = "A composed high—power with control."
     ∧ getWorkoutBPMMessage x avg
       = "Chill sessions. Maybe next season gets a remix?"
     ∧ getAvgWorkoutTimeMessage x
       = "Quick hits, maximum efficiency. HIIT energy."
     ∧ getAvgCaloriesPerWorkoutMessage x = "Light and breezy.")
  ∧ (getRestlessNightMessage (val x) = getRestlessNightMessage undefined
     ∧ getLongestSleepMessage (val x) = getLongestSleepMessage undefined
     ∧ getShortestSleepMessage (val x) = getShortestSleepMessage undefined
     ∧ getFastestPaceMessage (val x) = getFastestPaceMessage undefined).
Proof.
  intros Hx.
  assert (∀ c, JS.lt x c = false ∧ JS.le x c = false ∧ JS.gt x c = false
               ∧ JS.ge x c = false ∧ JS.strict_eq x c = false) as Hc
    by (intros c; by apply FloatOrder.nan_compare).
  assert (JS.truthy_number x = false) as Ht
    by (unfold JS.truthy_number; rewrite Hx; by destruct (is_zero x)).
  unfold getStepsMessage, getFlightsMessage, getRunCountMessage,
    getDistanceMessage, getSleepHoursMessage, getLongestRunMessage,
    getRunDistanceMessage, getExerciseMinutesMessage,
    getCaloriesBurnedMessage, getStandHoursMessage, getWorkoutBPMMessage,
    getAvgWorkoutTimeMessage, getAvgCaloriesPerWorkoutMessage,
    getRestlessNightMessage, getLongestSleepMessage,
    getShortestSleepMessage, getFastestPaceMessage.
  cbn [JS.truthy JS.ToNumber]. rewrite Ht. cbn [negb].
  repeat match goal with
         | |- context [JS.lt x ?c] => rewrite (proj1 (Hc c))
         | |- context [JS.gt x ?c] => rewrite (proj1 (proj2 (proj2 (Hc c))))
         | |- context [JS.ge x ?c] =>
             rewrite (proj1 (proj2 (proj2 (proj2 (Hc c)))))
         | |- context [JS.strict_eq x ?c] =>
             rewrite (proj2 (proj2 (proj2 (proj2 (Hc c)))))
         end.
  by repeat apply conj.
Qed.

Lemma nan_inputs_witness :
  getStepsMessage nan = "Holy moly cuz... that's alot of steps!".
Proof.
  apply (nan_inputs nan). reflexivity.
Defined.

(** The checks behind the clock-time theorem, as boolean tests over all
    hours and minutes. *)
Lemma clock_times_checked :
  forallb
    (λ h, forallb
            (λ m,
               bool_decide
                 (getBedtimeMessage (val (hhmm h m))
                  = if bool_decide (h = 23 ∧ 1 ≤ m)
                    then "Night owl confirmed—you love the late-night vibes."
                    else "Pretty tidy bedtime. Your circadian rhythm approves.")
               && bool_decide
                    (getWakeMessage (val (hhmm h m))
                     = if bool_decide (h < 7)
                       then "Early bird energy—you probably saw a few sunrises."
                       else "You vibe with the snooze button and we're here for it."))
            (seq 0 60))
    (seq 0 24)
  = true.
Proof. vm_compute. reflexivity. Qed.

(** For an average bedtime written [HH:MM] the "night owl" note is shown
    exactly for 23:01 to 23:59: 23:00 itself and every bedtime after
    midnight count as tidy.  For a wake time written [HH:MM] the "early
    bird" note is shown exactly before 07:00. *)
Theorem clock_time_messages (h m : nat) :
  h < 24 → m < 60 →
  getBedtimeMessage (val (hhmm h m))
  = (if bool_decide (h = 23 ∧ 1 ≤ m)
     then "Night owl confirmed—you love the late-night vibes."
     else "Pretty tidy bedtime. Your circadian rhythm approves.")
  ∧ getWakeMessage (val (hhmm h m))
    = (if bool_decide (h < 7)
       then "Early bird energy—you probably saw a few sunrises."
       else "You vibe with the snooze button and we're here for it.").
Proof.
  intros Hh Hm.
  pose proof clock_times_checked as Hall.
  rewrite forallb_forall in Hall.
  assert (In h (seq 0 24)) as Hin by (apply in_seq; lia).
  apply Hall in Hin. rewrite forallb_forall in Hin.
  assert (In m (seq 0 60)) as Hin' by (apply in_seq; lia).
  apply Hin in Hin'. apply andb_prop in Hin' as [H1 H2].
  apply bool_decide_eq_true in H1. apply bool_decide_eq_true in H2. done.
Qed.

Lemma clock_time_messages_witness :
  getBedtimeMessage (val (hhmm 0 30))
  = "Pretty tidy bedtime. Your circadian rhythm approves.".
Proof.
  apply (clock_time_messages 0 30); lia.
Defined.

(* ===================================================================== *)
(** ** Further properties of the monthly charts *)
(* ===================================================================== *)

Lemma String_of_inj (i j : nat) : String_of i = String_of j → i = j.
Proof. unfold String_of. apply pretty_nat_inj. Qed.

(** The values of a chart, month by month. *)
Lemma MonthlyStepsChart_values (o : monthly) :
  sp_steps <$> MonthlyStepsChart (val o)
  = (λ k, default 0%float (o !! String_of k)) <$> seq 1 12.
Proof.
  unfold MonthlyStepsChart, months. cbn [JS.coalesce imap fmap list_fmap seq].
  unfold compose. cbn [sp_steps Nat.add].
  by rewrite !month_value.
Qed.

Lemma WorkoutTimelineChart_values (o : monthly) :
  wp_workouts <$> WorkoutTimelineChart (val o)
  = (λ k, default 0%float (o !! String_of k)) <$> seq 1 12.
Proof.
  unfold WorkoutTimelineChart, months.
  cbn [JS.coalesce imap fmap list_fmap seq].
  unfold compose. cbn [wp_workouts Nat.add].
  by rewrite !month_value.
Qed.

Lemma values_insert (o : monthly) (k : nat) (v : number) :
  1 ≤ k ≤ 12 →
  (λ j, default 0%float (<[String_of k := v]> o !! String_of j)) <$> seq 1 12
  = <[k - 1 := v]>
      ((λ j, default 0%float (o !! String_of j)) <$> seq 1 12).
Proof.
  intros Hk. apply list_eq. intros i.
  rewrite list_lookup_insert, !list_lookup_fmap, length_fmap, length_seq.
  destruct (decide (i < 12)) as [Hi|Hi].
  - rewrite lookup_seq_lt by done. simpl.
    case_decide as Hd.
    + destruct Hd as [<- _]. replace (S (k - 1)) with k by lia.
      by rewrite lookup_insert_eq.
    + rewrite lookup_insert_ne; [done|].
      intros Heq. apply String_of_inj in Heq. lia.
  - rewrite lookup_seq_ge by lia. simpl.
    case_decide as Hd; [lia|done].
Qed.

(** Only the properties "1" to "12" reach a chart: two objects that agree
    on them give the same chart data, whatever else they hold. *)
Theorem monthly_chart_reads_twelve_keys (o o' : monthly) :
  (∀ k, 1 ≤ k ≤ 12 → o !! String_of k = o' !! String_of k) →
  MonthlyStepsChart (val o) = MonthlyStepsChart (val o')
  ∧ WorkoutTimelineChart (val o) = WorkoutTimelineChart (val o').
Proof.
  intros Hagree.
  assert (∀ i (m : string), months !! i = Some m → 1 ≤ i + 1 ≤ 12) as Hidx.
  { intros i m Hm. apply lookup_lt_Some in Hm. simpl in Hm. lia. }
  split; apply imap_ext; intros i m Hm; cbn zeta; cbn [JS.coalesce];
    by rewrite !month_value, (Hagree _ (Hidx i m Hm)).
Qed.

Lemma monthly_chart_reads_twelve_keys_witness :
  MonthlyStepsChart (val {[ "3" := 500%float ]})
  = MonthlyStepsChart
      (val (<[ "03" := 7%float ]> (<[ "13" := 9%float ]> {[ "3" := 500%float ]}))).
Proof.
  apply (monthly_chart_reads_twelve_keys
           {[ "3" := 500%float ]}
           (<[ "03" := 7%float ]>
              (<[ "13" := 9%float ]> {[ "3" := 500%float ]}))).
  intros k Hk.
  do 13 (destruct k as [|k]; [first [lia | reflexivity]|]). lia.
Defined.

(** Storing a value for month [k] changes the entry at index [k - 1] of
    both charts to that value and no other entry. *)
Theorem monthly_chart_insert (o : monthly) (k : nat) (v : number) :
  1 ≤ k ≤ 12 →
  sp_steps <$> MonthlyStepsChart (val (<[String_of k := v]> o))
  = <[k - 1 := v]> (sp_steps <$> MonthlyStepsChart (val o))
  ∧ wp_workouts <$> WorkoutTimelineChart (val (<[String_of k := v]> o))
    = <[k - 1 := v]> (wp_workouts <$> WorkoutTimelineChart (val o)).
Proof.
  intros Hk.
  rewrite !MonthlyStepsChart_values, !WorkoutTimelineChart_values.
  by rewrite values_insert.
Qed.

Lemma monthly_chart_insert_witness :
  sp_steps <$> MonthlyStepsChart (val (<[String_of 12 := 31%float]> ∅))
  = <[12 - 1 := 31%float]> (sp_steps <$> MonthlyStepsChart (val ∅)).
Proof.
  apply (monthly_chart_insert ∅ 12 31%float). lia.
Defined.

(* ===================================================================== *)
(** ** Further properties of the cards *)
(* ===================================================================== *)

(** A missing fitness field is shown as a recorded 0: the card prints the
    number 0 before its unit and carries the note of the lowest tier. *)
Theorem fitness_cards_missing_field
    (toStr : number -> string) (data : WrappedData) :
  (missing (exercise_total data) →
   FitnessCards toStr data !! 0
   = Some {| fp_label := "Exercise Minutes";
             fp_value := toStr 0%float +:+ " min";
             fp_note := "Every minute mattered. Warm-up phase complete.";
             fp_variant := default_variant |})
  ∧ (missing (total_workout_calories data) →
     FitnessCards toStr data !! 1
     = Some {| fp_label := "Calories Burned";
               fp_value := toStr 0%float +:+ " kcal";
               fp_note := "A solid burn to get started.";
               fp_variant := default_variant |})
  ∧ (missing (stand_total data) →
     FitnessCards toStr data !! 2
     = Some {| fp_label := "Stand Hours";
               fp_value := toStr 0%float +:+ " hrs";
               fp_note := "Baby steps toward less sitting. Keep it up.";
               fp_variant := default_variant |})
  ∧ (missing (highest_workout_bpm data) →
     FitnessCards toStr data !! 3
     = Some {| fp_label := "Highest Workout BPM";
               fp_value := toStr 0%float +:+ " bpm";
               fp_note := "A composed high—power with control.";
               fp_variant := alert |})
  ∧ (missing (avg_workout_bpm data) →
     FitnessCards toStr data !! 4
     = Some {| fp_label := "Average Workout BPM";
               fp_value := toStr 0%float +:+ " bpm";
               fp_note := "Chill sessions. Maybe next season gets a remix?";
               fp_variant := alert |})
  ∧ (missing (avg_workout_time_min data) →
     FitnessCards toStr data !! 5
     = Some {| fp_label := "Avg Workout Time";
               fp_value := toStr 0%float +:+ " min";
               fp_note := "Quick hits, maximum efficiency. HIIT energy.";
               fp_variant := default_variant |})
  ∧ (missing (avg_calories_per_workout data) →
     FitnessCards toStr data !! 6
     = Some {| fp_label := "Avg Calories / Workout";
               fp_value := toStr 0%float +:+ " kcal";
               fp_note := "Light and breezy.";
               fp_variant := default_variant |}).
Proof.
  unfold FitnessCards.
  repeat apply conj; intros [H|H]; cbn [lookup list_lookup]; by rewrite H.
Qed.

Lemma fitness_cards_missing_field_witness :
  FitnessCards (λ _, "") sample !! 2
  = Some {| fp_label := "Stand Hours";
            fp_value := "" +:+ " hrs";
            fp_note := "Baby steps toward less sitting. Keep it up.";
            fp_variant := default_variant |}.
Proof.
  apply (fitness_cards_missing_field (λ _, "") sample). left. reflexivity.
Defined.

(** On the night cards a recorded value that is 0 (or NaN) is printed as a
    number, not as "N/A", while the note beside it is the one for a
    missing value: value and note disagree about whether the night is
    there. *)
Theorem night_cards_falsy_value
    (toStr : number -> string) (data : WrappedData) :
  (∀ night, most_woken_night data = val night →
     JS.truthy_number (awakening_count night) = false →
     value (MostWokenNightCard toStr data)
     = toStr (awakening_count night) +:+ " wake-ups"
     ∧ note (MostWokenNightCard toStr data) = getRestlessNightMessage undefined)
  ∧ (∀ night, longest_sleep_night data = val night →
       JS.truthy_number (duration_hours night) = false →
       value (LongestSleepCard toStr data)
       = toStr (duration_hours night) +:+ " hrs"
       ∧ note (LongestSleepCard toStr data) = getLongestSleepMessage undefined)
  ∧ (∀ night, shortest_sleep_night data = val night →
       JS.truthy_number (duration_hours night) = false →
       value (ShortestSleepCard toStr data)
       = toStr (duration_hours night) +:+ " hrs"
       ∧ note (ShortestSleepCard toStr data)
         = getShortestSleepMessage undefined).
Proof.
  unfold MostWokenNightCard, LongestSleepCard, ShortestSleepCard,
    getRestlessNightMessage, getLongestSleepMessage, getShortestSleepMessage.
  repeat apply conj; intros night -> Hf;
    cbn [value note JS.optchain JS.truthy]; by rewrite Hf.
Qed.

Lemma night_cards_falsy_value_witness :
  let data :=
    {| steps_total := 0; distance_total_km := 0; flights_total := 0;
       total_runs := 0; longest_run_km := 0;
       fastest_pace_min_per_km := null; run_distances := null;
       resting_hr_avg := 0; workout_hr_avg := 0; workouts_count := 0;
       highest_workout_bpm := null; avg_workout_bpm := null;
       avg_workout_time_min := null; avg_calories_per_workout := null;
       total_workout_calories := null; most_calories_burned_day := [];
       most_calories_burned_value := 0; move_total := 0;
       exercise_total := null; stand_total := null;
       steps_monthly := null; workouts_monthly := null; wrapped_year := 2024;
       total_net_sleep_hours := 0; total_nights_with_data := null;
       avg_sleep_per_night := 0; avg_bedtime := null; avg_waketime := null;
       longest_sleep_night := undefined;
       most_woken_night :=
         val {| awakening_count := 0;
                wn_date_woke := code_units "2024-02-03" |};
       shortest_sleep_night := undefined |} in
  value (MostWokenNightCard (λ _, "0") data) = "0" +:+ " wake-ups"
  ∧ note (MostWokenNightCard (λ _, "0") data)
    = getRestlessNightMessage undefined.
Proof.
  intros data.
  apply (proj1 (night_cards_falsy_value (λ _, "0") data)
           {| awakening_count := 0;
              wn_date_woke := code_units "2024-02-03" |});
    reflexivity.
Defined.

(** No selector returns the empty string. *)
Lemma selectors_truthy :
  (∀ x, truthy_lit (getRestlessNightMessage x) = true)
  ∧ (∀ x, truthy_lit (getLongestSleepMessage x) = true)
  ∧ (∀ x, truthy_lit (getShortestSleepMessage x) = true)
  ∧ (∀ x, truthy_lit (getBedtimeMessage x) = true)
  ∧ (∀ x, truthy_lit (getWakeMessage x) = true)
  ∧ (∀ x, truthy_lit (getLongestRunMessage x) = true)
  ∧ (∀ x, truthy_lit (getFastestPaceMessage x) = true)
  ∧ (∀ x, truthy_lit (getRunDistanceMessage x) = true)
  ∧ (∀ x, truthy_lit (getExerciseMinutesMessage x) = true)
  ∧ (∀ x, truthy_lit (getCaloriesBurnedMessage x) = true)
  ∧ (∀ x, truthy_lit (getStandHoursMessage x) = true)
  ∧ (∀ x k, truthy_lit (getWorkoutBPMMessage x k) = true)
  ∧ (∀ x, truthy_lit (getAvgWorkoutTimeMessage x) = true)
  ∧ (∀ x, truthy_lit (getAvgCaloriesPerWorkoutMessage x) = true).
Proof.
  unfold getRestlessNightMessage, getLongestSleepMessage,
    getShortestSleepMessage, getBedtimeMessage, getWakeMessage,
    getLongestRunMessage, getFastestPaceMessage, getRunDistanceMessage,
    getExerciseMinutesMessage, getCaloriesBurnedMessage,
    getStandHoursMessage, getWorkoutBPMMessage, getAvgWorkoutTimeMessage,
    getAvgCaloriesPerWorkoutMessage.
  repeat apply conj; intros; by repeat case_match.
Qed.

(** Every card that takes its note from a selector shows that note: the
    components drop a falsy note, and no selector returns one.  A night
    card ends with its "Day:" line exactly when the night is recorded
    with a non-empty date; a time card never has that line. *)
Theorem card_notes_always_shown
    (toStr : number -> string) (parse : string -> number)
    (data : WrappedData) :
  Forall
    (λ c, SleepCard (label c) (lit (value c)) (note c) (footer c)
          = ([lit (label c); lit (value c); lit (note c)]
             ++ match footer c with
                | val (u :: date) => [lit "Day: "; doc (u :: date)]
                | _ => []
                end)%list)
    (NightCards toStr data)
  ∧ Forall
      (λ t, SleepCard (tc_label t) (tc_value t) (tc_note t) undefined
            = [lit (tc_label t); tc_value t; lit (tc_note t)])
      [AverageBedtimeCard data; AverageWakeTimeCard data]
  ∧ Forall
      (λ c, RunCard (label c) (value c) (note c)
            = [lit (label c); lit (value c); lit (note c)])
      [LongestRunCard toStr data; FastestPaceCard toStr data;
       DistanceInRunsCard toStr parse data]
  ∧ Forall
      (λ c, FitnessCard (fp_label c) (fp_value c) (fp_note c) (fp_variant c)
            = [lit (fp_label c); lit (fp_value c); lit (fp_note c)])
      (FitnessCards toStr data).
Proof.
  destruct selectors_truthy
    as (Hr & Hl & Hs & Hb & Hw & Hlr & Hfp & Hrd & He & Hc & Hst & Hbpm
        & Hwt & Hac).
  unfold NightCards, FitnessCards, SleepCard, RunCard, FitnessCard.
  repeat apply conj;
    repeat first [apply List.Forall_cons | apply List.Forall_nil];
    cbn [label value note footer tc_label tc_value tc_note fp_label fp_value
         fp_note fp_variant MostWokenNightCard LongestSleepCard
         ShortestSleepCard AverageBedtimeCard AverageWakeTimeCard
         LongestRunCard FastestPaceCard DistanceInRunsCard];
    rewrite ?Hr, ?Hl, ?Hs, ?Hb, ?Hw, ?Hlr, ?Hfp, ?Hrd, ?He, ?Hc, ?Hst,
      ?Hbpm, ?Hwt, ?Hac; try done.
  - by destruct (most_woken_night data) as [| |[c [|u d]]].
  - by destruct (longest_sleep_night data) as [| |[c [|u d]]].
  - by destruct (shortest_sleep_night data) as [| |[c [|u d]]].
Qed.

(** The "Running" tile and the note of the "Fastest Pace" card agree on
    when the pace is missing: the tile shows "—" exactly when the pace is
    falsy (null, undefined, 0 or NaN), and exactly then the note is the
    fallback of [getFastestPaceMessage]. *)
Theorem running_tile_agrees_with_note
    (toStr : number -> string) (parse : string -> number)
    (data : WrappedData) (s : Slides) :
  Home toStr parse (val data) = Wrapped s →
  (stat (running_tile s) = "—"
   ↔ JS.truthy JS.truthy_number (fastest_pace_min_per_km data) = false)
  ∧ (note (fastest_pace s) = "Pace radar couldn’t lock on—mysterious speed!"
     ↔ JS.truthy JS.truthy_number (fastest_pace_min_per_km data) = false).
Proof.
  intros Hs. injection Hs as <-.
  cbn [running_tile fastest_pace stat note RunningTile FastestPaceCard].
  assert (JS.truthy JS.truthy_number
            (JS.coalesce_opt (fastest_pace_min_per_km data) null)
          = JS.truthy JS.truthy_number (fastest_pace_min_per_km data)) as ->
    by (by destruct (fastest_pace_min_per_km data)).
  unfold getFastestPaceMessage.
  destruct (JS.truthy JS.truthy_number (fastest_pace_min_per_km data)).
  - cbn [negb]. split; split; try done.
    + intros Heq. apply (f_equal String.length) in Heq.
      rewrite length_append in Heq. simpl in Heq. lia.
    + by repeat case_match.
  - done.
Qed.

Lemma running_tile_agrees_with_note_witness :
  ∃ s, Home (λ _, "") (λ _, 0%float) (val sample) = Wrapped s
       ∧ (stat (running_tile s) = "—"
          ↔ JS.truthy JS.truthy_number (fastest_pace_min_per_km sample)
            = false).
Proof.
  eexists. split; [reflexivity|].
  apply (running_tile_agrees_with_note (λ _, "") (λ _, 0%float) sample).
  reflexivity.
Defined.



(* ===================================================================== *)
(** ** Further properties of the data loader *)
(* ===================================================================== *)

(** Whatever the fetch does, the chain ends fulfilled, and it touches
    exactly one thing: on failure it appends one line to the console and
    leaves the snapshot alone, on success it sets the snapshot and leaves
    the console alone.  Requests, waiting chains and the effect's
    dependencies are never touched. *)
Theorem chain_outcome (net : Loader.settled Loader.Response) (p : Loader.Page) :
  (Loader.chain net p).1 = Loader.fulfilled tt
  ∧ Loader.requests (Loader.chain net p).2 = Loader.requests p
  ∧ Loader.pending (Loader.chain net p).2 = Loader.pending p
  ∧ Loader.last_deps (Loader.chain net p).2 = Loader.last_deps p
  ∧ match Loader.failure net with
    | Some e =>
        Loader.data (Loader.chain net p).2 = Loader.data p
        ∧ Loader.console (Loader.chain net p).2
          = (Loader.console p
             ++ [{| Loader.log_text := "Failed to fetch wrapped data:";
                    Loader.log_reason := e |}])%list
    | None =>
        Loader.console (Loader.chain net p).2 = Loader.console p
        ∧ ∃ j, net = Loader.fulfilled {| Loader.json := Loader.fulfilled j |}
               ∧ Loader.data (Loader.chain net p).2 = val j
    end.
Proof.
  destruct net as [[[j|e]]|e]; cbn; repeat split; eauto.
Qed.

(** A commit after the first one does nothing, on any page: committing
    twice equals committing once, and a commit issues at most one
    request. *)
Theorem commit_idempotent (p : Loader.Page) :
  Loader.commit (Loader.commit p) = Loader.commit p
  ∧ (Loader.requests (Loader.commit p) = Loader.requests p
     ∨ Loader.requests (Loader.commit p)
       = (Loader.requests p ++ [Loader.endpoint])%list)
  ∧ (Loader.last_deps p = Some Loader.Home_deps → Loader.commit p = p).
Proof.
  unfold Loader.commit, Loader.deps_changed, Loader.Home_deps.
  destruct p as [d [deps|] r n c]; cbn [Loader.last_deps].
  - destruct deps as [|u deps].
    + rewrite bool_decide_eq_true_2 by done. cbn. auto.
    + rewrite bool_decide_eq_false_2 by done. cbn. repeat split; auto.
      intros [=].
  - cbn. repeat split; auto. intros [=].
Qed.

Lemma commit_idempotent_witness :
  Loader.commit (page_of waiting) = page_of waiting.
Proof.
  apply (commit_idempotent (page_of waiting)). reflexivity.
Defined.

Lemma phase_step (ph : Phase) (q : Loader.Page) :
  Loader.step (page_of ph) q → ∃ ph', q = page_of ph'.
Proof.
  intros Hstep. inversion Hstep as [p Hp|p net Hpos Hp]; subst.
  - destruct ph; [by exists waiting|by exists waiting|by eexists (loaded _)
                  |by eexists (failed _)].
  - destruct ph; cbn in Hpos; try lia.
    destruct net as [[[j|e]]|e];
      [by exists (loaded j)|by exists (failed e)|by exists (failed e)].
Qed.

(** The pages reachable from the initial one are exactly the four
    shapes: nothing requested yet; one request out and one chain waiting,
    snapshot null, console empty; the document held, console empty;
    snapshot null with the single failure line.  So at most one request
    is ever in flight, the console never holds more than one line, and a
    document is never shown together with a logged failure. *)
Theorem reachable_pages (p : Loader.Page) :
  rtc Loader.step Loader.initial p ↔ ∃ ph, p = page_of ph.
Proof.
  split.
  - intros Hsteps.
    assert (∀ a b, rtc Loader.step a b →
                   (∃ ph, a = page_of ph) → ∃ ph, b = page_of ph) as Hclosed.
    { intros a b Hab. induction Hab as [a|a a' b Hstep _ IH]; [done|].
      intros [ph ->]. apply IH. by apply (phase_step ph). }
    apply (Hclosed _ _ Hsteps). by exists fresh.
  - intros [ph ->].
    assert (rtc Loader.step Loader.initial (page_of waiting)) as Hw
      by (apply rtc_once; apply (Loader.step_commit Loader.initial)).
    destruct ph as [| |j|e]; [done|done| |].
    + eapply rtc_r; [exact Hw|].
      apply (Loader.step_settle (page_of waiting)
               (Loader.fulfilled {| Loader.json := Loader.fulfilled j |})).
      cbn. lia.
    + eapply rtc_r; [exact Hw|].
      apply (Loader.step_settle (page_of waiting) (Loader.rejected e)).
      cbn. lia.
Qed.

(** After a successful fetch the page shows the slides of the parsed
    document for good: every later page is that same page, with an empty
    console and the single request. *)
Theorem fetch_success_shows_slides
    (toStr : number -> string) (parse : string -> number)
    (j : WrappedData) (p : Loader.Page) :
  rtc Loader.step
    (Loader.settle
       (Loader.fulfilled {| Loader.json := Loader.fulfilled j |})
       (Loader.commit Loader.initial)).2 p →
  p = page_of (loaded j)
  ∧ Home toStr parse (Loader.data p) = Home toStr parse (val j)
  ∧ (∃ s, Home toStr parse (Loader.data p) = Wrapped s)
  ∧ Loader.console p = []
  ∧ Loader.requests p = [Loader.endpoint].
Proof.
  intros Hsteps.
  change (rtc Loader.step (page_of (loaded j)) p) in Hsteps.
  apply (LoaderFacts.loaded_steps _ _ j) in Hsteps as ->;
    [|unfold Loader.inv; cbn; auto|done].
  repeat split; eauto.
Qed.

Lemma fetch_success_shows_slides_witness :
  Loader.commit (page_of (loaded sample)) = page_of (loaded sample).
Proof.
  apply (fetch_success_shows_slides (λ _, "") (λ _, 0%float) sample
           (Loader.commit (page_of (loaded sample)))).
  apply rtc_once. apply (Loader.step_commit (page_of (loaded sample))).
Defined.

(* ===================================================================== *)
(** ** Further properties of number formatting *)
(* ===================================================================== *)

Lemma digits_decimals (f : nat) (n : N) :
  0 < f → decimals f (Fixed.digits f n).
Proof.
  intros Hf. unfold Fixed.digits.
  set (m := Fixed.zeros (f + 1 - String.length (pretty n)) +:+ pretty n).
  assert (f + 1 ≤ String.length m) as Hm.
  { unfold m. rewrite length_append, length_zeros. lia. }
  destruct f as [|f]; [lia|].
  eexists _, _. split; [reflexivity|].
  apply length_substring. lia.
Qed.

(** The "Average Sleep Time" pill prints the average with exactly one
    decimal, followed by " hrs", whenever the average is finite and below
    10^21 in magnitude; a NaN average is printed as "NaN hrs". *)
Theorem average_sleep_one_decimal
    (toStr : number -> string) (data : WrappedData) :
  (fixed_range (avg_sleep_per_night data) = true →
   ∃ t, AverageSleepTime toStr data = t +:+ " hrs" ∧ decimals 1 t)
  ∧ (is_nan (avg_sleep_per_night data) = true →
     AverageSleepTime toStr data = "NaN hrs").
Proof.
  unfold AverageSleepTime, fixed_range, toFixed. split.
  - intros Hr. eexists. split; [reflexivity|].
    destruct (Prim2SF (avg_sleep_per_night data)) as [z|i| |s m e];
      try done.
    + apply digits_decimals. lia.
    + apply negb_true_iff in Hr. rewrite Hr.
      destruct (digits_decimals 1 (Fixed.scaled 1 m e)) as (a & b & -> & Hb);
        [lia|].
      destruct s; [exists ("-" +:+ a), b | exists a, b]; done.
  - intros Hn. by rewrite (FloatOrder.nan_spec _ Hn).
Qed.

Lemma average_sleep_one_decimal_witness :
  ∃ t, AverageSleepTime (λ _, "") sample = t +:+ " hrs" ∧ decimals 1 t.
Proof.
  apply (average_sleep_one_decimal (λ _, "") sample). reflexivity.
Defined.

Example AverageSleepTime_sample : AverageSleepTime (λ _, "") sample = "7.5 hrs".
Proof. vm_compute. reflexivity. Qed.

(* ===================================================================== *)
(** ** The night cards without a night *)
(* ===================================================================== *)

(** When a night record is missing (null or undefined) its card shows
    "N/A" before the unit, the fallback note of its selector, and no
    "Day:" line: three text nodes in all. *)
Theorem night_cards_missing_night
    (toStr : number -> string) (data : WrappedData) :
  (missing (most_woken_night data) →
   MostWokenNightCard toStr data
   = {| label := "Most Woken Night"; value := "N/A wake-ups";
        note := "Quite the restless night!"; footer := undefined |}
   ∧ SleepCard "Most Woken Night" (lit "N/A wake-ups")
       "Quite the restless night!" undefined
     = [lit "Most Woken Night"; lit "N/A wake-ups";
        lit "Quite the restless night!"])
  ∧ (missing (longest_sleep_night data) →
     LongestSleepCard toStr data
     = {| label := "Longest Sleep"; value := "N/A hrs";
          note := "Quite the slumber."; footer := undefined |}
     ∧ SleepCard "Longest Sleep" (lit "N/A hrs") "Quite the slumber."
         undefined
       = [lit "Longest Sleep"; lit "N/A hrs"; lit "Quite the slumber."])
  ∧ (missing (shortest_sleep_night data) →
     ShortestSleepCard toStr data
     = {| label := "Shortest Sleep"; value := "N/A hrs";
          note := "Power nap vibes."; footer := undefined |}
     ∧ SleepCard "Shortest Sleep" (lit "N/A hrs") "Power nap vibes."
         undefined
       = [lit "Shortest Sleep"; lit "N/A hrs"; lit "Power nap vibes."]).
Proof.
  unfold MostWokenNightCard, LongestSleepCard, ShortestSleepCard.
  repeat apply conj; intros [H|H]; rewrite H; by split.
Qed.

Lemma night_cards_missing_night_witness :
  LongestSleepCard (λ _, "") sample
  = {| label := "Longest Sleep"; value := "N/A hrs";
       note := "Quite the slumber."; footer := undefined |}.
Proof.
  apply (night_cards_missing_night (λ _, "") sample). right. reflexivity.
Defined.
